(** * GeoExt.data.LayerStore: synchronising a store of layer records with
      the layer collection of a map.

    Shallow embedding of [src/data/LayerStore.js].  The store (an
    [Ext.data.Store]), the layer collection (an [ol.Collection]) and the
    layers (each an [ol.Object]) are JavaScript objects mutated in place and
    wired together by synchronous event listeners.  They are modelled as one
    explicit state, and every method of the class as a state transformer
    which may throw.  A collection or store operation that fires an event
    runs the listeners registered for it before it returns, so the handlers
    are written with open recursion over the event dispatcher [fire]. *)

From Stdlib Require Import List String Bool Arith Lia.
Import ListNotations.
Local Open Scope string_scope.
Local Open Scope list_scope.

(** ** Data *)

(** Layers are compared by reference ([===]) only: a layer is its identity.
    Its [title] property lives in the state. *)
Definition Layer := nat.

(** A record (an instance of [GeoExt.data.model.layer.Base]).  [rid] is the
    identity of the JavaScript object, [olLayer] what [getOlLayer()] returns,
    [rtitle] the field read by [get("title")], and [modified_title] the value
    of [record.modified && record.modified.title]: [None] when it is
    undefined, otherwise the string stored there. *)
Record Rec := mkRec {
  rid : nat;
  olLayer : Layer;
  rtitle : string;
  modified_title : option string
}.

Definition getOlLayer (r : Rec) : Layer := olLayer r.

(** Result of [proxy.reader.read]. *)
Record ResultSet := mkResult {
  success : bool;
  total : nat;
  records : list Rec
}.

(** The reader is a collaborator of the store; [None] stands for a call
    that throws. *)
Definition Reader := Layer -> option ResultSet.

(** Operation kinds of the store's [update] event. *)
Inductive Operation := EDIT | REJECT | COMMIT.

Definition Operation_eqb (a b : Operation) : bool :=
  match a, b with
  | EDIT, EDIT | REJECT, REJECT | COMMIT, COMMIT => true
  | _, _ => false
  end.

(** Calls made on the collaborators, recorded in call order (newest
    first in the state, see [trace]). *)
Inductive Act :=
| AOn (l : Layer)                       (* layer.on('propertychange', ...) *)
| AUn (l : Layer)                       (* layer.un('propertychange', ...) *)
| APush (l : Layer)                     (* getLayers().push(layer) *)
| AInsertAt (i : nat) (l : Layer)       (* getLayers().insertAt(i, layer) *)
| ARemoveLayer (l : Layer)              (* getLayers().remove(layer) *)
| AClear                                (* getLayers().clear() *)
| AExtend (ls : list Layer)             (* getLayers().extend(layers) *)
| ALayerSetTitle (l : Layer) (t : string) (* layer.set('title', t) *)
| AInsert (i : nat) (rs : list Rec)     (* store.insert(i, records) *)
| ARemove (r : Rec)                     (* store.remove(record) *)
| ARecordSetTitle (r : nat) (t : string) (* record.set("title", t) *)
| AFireUpdate (r : nat)                 (* store.fireEvent("update", ...) *)
| AFireBind.                            (* store.fireEvent("bind", ...) *)

(** The store [me], its map and the objects they hold. *)
Record Store := mkStore {
  map : bool;                  (* [me.map] is set (not null) *)
  layers : list Layer;         (* [map.getLayers().getArray()] *)
  data : list Rec;             (* the records of the store, in order *)
  titles : list (Layer * string); (* the [title] property of the layers *)
  propertychange : list Layer; (* layers on which onChangeLayer is
                                  registered *)
  layers_on : bool;            (* onAddLayer/onRemoveLayer registered *)
  store_on : bool;             (* onLoad .. onStoreUpdate, onReplace registered *)
  _adding : bool;
  _removing : bool;
  _addRecords : bool;
  totalCount : nat;
  calls : list Act
}.

(** ** Outcomes *)

(** A method returns, throws (leaving the state as it was at the throw), or
    the dispatcher has no fuel left for a nested event. *)
Inductive Outcome :=
| Ret (s : Store)
| Throw (s : Store)
| Fuel.

Definition bind (o : Outcome) (k : Store -> Outcome) : Outcome :=
  match o with
  | Ret s => k s
  | Throw s => Throw s
  | Fuel => Fuel
  end.

Notation "o >>= k" := (bind o k) (at level 50, left associativity).

(** Sequential iteration, as [Array.prototype.forEach] or a [for] loop. *)
Fixpoint forEach {A} (f : A -> Store -> Outcome) (xs : list A) (s : Store)
  : Outcome :=
  match xs with
  | [] => Ret s
  | x :: xs' => f x s >>= forEach f xs'
  end.

(** ** Field updates *)

Definition set_map b s :=
  mkStore b (layers s) (data s) (titles s) (propertychange s) (layers_on s)
    (store_on s) (_adding s) (_removing s) (_addRecords s) (totalCount s) (calls s).
Definition set_layers ls s :=
  mkStore (map s) ls (data s) (titles s) (propertychange s) (layers_on s)
    (store_on s) (_adding s) (_removing s) (_addRecords s) (totalCount s) (calls s).
Definition set_data d s :=
  mkStore (map s) (layers s) d (titles s) (propertychange s) (layers_on s)
    (store_on s) (_adding s) (_removing s) (_addRecords s) (totalCount s) (calls s).
Definition set_titles t s :=
  mkStore (map s) (layers s) (data s) t (propertychange s) (layers_on s)
    (store_on s) (_adding s) (_removing s) (_addRecords s) (totalCount s) (calls s).
Definition set_propertychange p s :=
  mkStore (map s) (layers s) (data s) (titles s) p (layers_on s)
    (store_on s) (_adding s) (_removing s) (_addRecords s) (totalCount s) (calls s).
Definition set_layers_on b s :=
  mkStore (map s) (layers s) (data s) (titles s) (propertychange s) b
    (store_on s) (_adding s) (_removing s) (_addRecords s) (totalCount s) (calls s).
Definition set_store_on b s :=
  mkStore (map s) (layers s) (data s) (titles s) (propertychange s) (layers_on s)
    b (_adding s) (_removing s) (_addRecords s) (totalCount s) (calls s).
Definition set_adding b s :=
  mkStore (map s) (layers s) (data s) (titles s) (propertychange s) (layers_on s)
    (store_on s) b (_removing s) (_addRecords s) (totalCount s) (calls s).
Definition set_removing b s :=
  mkStore (map s) (layers s) (data s) (titles s) (propertychange s) (layers_on s)
    (store_on s) (_adding s) b (_addRecords s) (totalCount s) (calls s).
Definition set_addRecords b s :=
  mkStore (map s) (layers s) (data s) (titles s) (propertychange s) (layers_on s)
    (store_on s) (_adding s) (_removing s) b (totalCount s) (calls s).
Definition set_totalCount n s :=
  mkStore (map s) (layers s) (data s) (titles s) (propertychange s) (layers_on s)
    (store_on s) (_adding s) (_removing s) (_addRecords s) n (calls s).
Definition call (a : Act) s :=
  mkStore (map s) (layers s) (data s) (titles s) (propertychange s) (layers_on s)
    (store_on s) (_adding s) (_removing s) (_addRecords s) (totalCount s)
    (a :: calls s).

(** The calls in the order they were made. *)
Definition trace (s : Store) : list Act := rev (calls s).

(** ** Events *)

(** The notifications the class listens to: [add] and [remove] of the layer
    collection, [propertychange] of a layer, the store's [load], [clear],
    [add], [remove] and [update], and [replace] of the store's [data]. *)
Inductive Event :=
| EvLayersAdd (element : Layer)
| EvLayersRemove (element : Layer)
| EvPropertyChange (target : Layer) (key : string)
| EvLoad (rs : list Rec) (successful : bool)
| EvClear
| EvAdd (rs : list Rec) (index : nat)
| EvRemove (r : Rec)
| EvUpdate (r : Rec) (operation : Operation)
| EvReplace (key : nat) (oldRecord : Rec).

Definition Fire := Event -> Store -> Outcome.

(** ** Arrays *)

(** [Array.prototype.indexOf]: [None] stands for [-1]. *)
Fixpoint indexOf (l : Layer) (xs : list Layer) : option nat :=
  match xs with
  | [] => None
  | x :: xs' =>
      if Nat.eqb x l then Some 0
      else match indexOf l xs' with
           | Some i => Some (S i)
           | None => None
           end
  end.

(** [array.splice(i, 0, x)] for [0 <= i]: past the end it appends. *)
Definition splice1 {A} (i : nat) (x : A) (xs : list A) : list A :=
  firstn i xs ++ x :: skipn i xs.

(** [array.splice(i, 0, x1, .., xn)]. *)
Definition splice {A} (i : nat) (ys xs : list A) : list A :=
  firstn i xs ++ ys ++ skipn i xs.

(** Removal of the first occurrence of a layer. *)
Fixpoint remove1 (l : Layer) (xs : list Layer) : list Layer :=
  match xs with
  | [] => []
  | x :: xs' => if Nat.eqb x l then xs' else x :: remove1 l xs'
  end.

(** Number of occurrences of a layer. *)
Definition count (l : Layer) (xs : list Layer) : nat :=
  List.length (filter (Nat.eqb l) xs).

(** ** The layers: [ol.Object] *)

(** The value last stored for a layer, the empty string when there is
    none. *)
Fixpoint assoc (l : Layer) (ts : list (Layer * string)) : string :=
  match ts with
  | [] => ""
  | (k, v) :: ts' => if Nat.eqb k l then v else assoc l ts'
  end.

(** Modelled from the spec: [ol.Object.get], the target element's
    [get(key)] of section 6, for key [title]; a layer without a title reads
    as the empty string. *)
Definition layer_get_title (l : Layer) (s : Store) : string :=
  assoc l (titles s).

(** The listeners of one event of an observable are kept once per
    listener and scope: registering a pair that is registered already
    changes nothing. *)
Definition register (l : Layer) (p : list Layer) : list Layer :=
  if existsb (Nat.eqb l) p then p else l :: p.

(** Modelled from the spec: [ol.Object.on], subscription to the target
    element's property-change notification, as called in
    [layer.on('propertychange', me.onChangeLayer, me)].  The class always
    passes the same listener and scope, so a layer holds at most one
    registration however often [on] is called. *)
Definition layer_on (l : Layer) (s : Store) : Store :=
  set_propertychange (register l (propertychange s)) (call (AOn l) s).

(** Modelled from the spec: [ol.Object.un], as called in
    [layer.un('propertychange', me.onChangeLayer, me)]: one registration
    fewer, nothing when there is none. *)
Definition layer_un (l : Layer) (s : Store) : Store :=
  set_propertychange (remove1 l (propertychange s)) (call (AUn l) s).

(** Modelled from the spec: [ol.Object.set], the target element's
    [set(key, value)] of section 6, as called in [layer.set('title', t)]:
    stores the value and notifies the [propertychange] listeners with key
    [title]. *)
Definition layer_set_title (fire : Fire) (l : Layer) (t : string) (s : Store)
  : Outcome :=
  fire (EvPropertyChange l "title")
       (set_titles ((l, t) :: titles s) (call (ALayerSetTitle l t) s)).

(** ** The layer collection: [ol.Collection] *)

(** Modelled from the spec: [ol.Collection.push] of the target collection
    (section 6): appends at the end of the array and fires [add] with the
    element. *)
Definition coll_push_raw (fire : Fire) (l : Layer) (s : Store) : Outcome :=
  fire (EvLayersAdd l) (set_layers (layers s ++ [l]) s).

(** The call [getLayers().push(layer)]. *)
Definition coll_push (fire : Fire) (l : Layer) (s : Store) : Outcome :=
  coll_push_raw fire l (call (APush l) s).

(** Modelled from the spec: [ol.Collection.insertAt(index, elem)]:
    splices the element in and fires [add]. *)
Definition coll_insertAt (fire : Fire) (i : nat) (l : Layer) (s : Store)
  : Outcome :=
  fire (EvLayersAdd l) (set_layers (splice1 i l (layers s)) (call (AInsertAt i l) s)).

(** Modelled from the spec: [ol.Collection.remove(elem)]: removes the
    first occurrence and fires [remove]; does nothing when the element is
    absent. *)
Definition coll_remove (fire : Fire) (l : Layer) (s : Store) : Outcome :=
  let s := call (ARemoveLayer l) s in
  match indexOf l (layers s) with
  | Some _ => fire (EvLayersRemove l) (set_layers (remove1 l (layers s)) s)
  | None => Ret s
  end.

(** Modelled from the spec: [ol.Collection.clear()]: pops the last
    element, firing [remove] for it, until the collection is empty.  The loop runs while [getLength() > 0]; no listener
    of [remove] adds a layer, so the length at entry bounds it. *)
Fixpoint coll_clear_loop (fire : Fire) (n : nat) (s : Store) : Outcome :=
  match n with
  | 0 => Ret s
  | S n' =>
      match rev (layers s) with
      | [] => Ret s
      | l :: front =>
          fire (EvLayersRemove l) (set_layers (rev front) s)
            >>= coll_clear_loop fire n'
      end
  end.

Definition coll_clear (fire : Fire) (s : Store) : Outcome :=
  coll_clear_loop fire (List.length (layers s)) (call AClear s).

(** Modelled from the spec: [ol.Collection.extend(arr)]: pushes every
    element in turn. *)
Definition coll_extend (fire : Fire) (ls : list Layer) (s : Store) : Outcome :=
  forEach (coll_push_raw fire) ls (call (AExtend ls) s).

(** ** The store: [Ext.data.Store] *)

(** Modelled from the spec: [Ext.data.Store.findBy] and [getAt]
    (find-index-by-predicate and get-at-index of section 6), as used in
    [findBy(function(rec) { return rec.getOlLayer() === layer; })] followed
    by [getAt]: the first record bound to the layer. *)
Definition findByLayer (l : Layer) (s : Store) : option Rec :=
  find (fun r => Nat.eqb (getOlLayer r) l) (data s).

(** Modelled from the spec: [Ext.data.Store.insert(index, records)]
    (insert-at-index of section 6): splices the records in and fires [add]
    with the records and the index; nothing happens for an empty array. *)
Definition store_insert (fire : Fire) (i : nat) (rs : list Rec) (s : Store)
  : Outcome :=
  let s := call (AInsert i rs) s in
  match rs with
  | [] => Ret s
  | _ => fire (EvAdd rs i) (set_data (splice i rs (data s)) s)
  end.

(** Modelled from the spec: [Ext.data.Store.remove(record)]
    (remove-by-reference of section 6): removes the record and fires
    [remove]; nothing happens when it is not in the store. *)
Definition store_remove (fire : Fire) (r : Rec) (s : Store) : Outcome :=
  let s := call (ARemove r) s in
  if existsb (fun x => Nat.eqb (rid x) (rid r)) (data s)
  then fire (EvRemove r)
            (set_data (filter (fun x => negb (Nat.eqb (rid x) (rid r))) (data s)) s)
  else Ret s.

(** Modelled from the spec: the record after [Ext.data.Model.set] wrote a
    new title: [record.modified.title] keeps the original value. *)
Definition edit_title (t : string) (x : Rec) : Rec :=
  mkRec (rid x) (olLayer x) t
        (match modified_title x with
         | Some o => Some o
         | None => Some (rtitle x)
         end).

(** The store's records after the record with identity [r] got title
    [t]. *)
Definition retitled (r : nat) (t : string) (d : list Rec) : list Rec :=
  List.map (fun y => if Nat.eqb (rid y) r then edit_title t y else y) d.

(** Modelled from the spec: [Ext.data.Model.set], as called in
    [record.set("title", t)], on the record with identity [r]: nothing when
    the value is unchanged; otherwise the field is written, the original
    value is kept in [record.modified] and the store fires [update] with
    operation [EDIT] (the "entry edited" notification of section 4.4). *)
Definition record_set_title (fire : Fire) (r : nat) (t : string) (s : Store)
  : Outcome :=
  let s := call (ARecordSetTitle r t) s in
  match find (fun x => Nat.eqb (rid x) r) (data s) with
  | Some x =>
      if String.eqb (rtitle x) t then Ret s
      else fire (EvUpdate (edit_title t x) EDIT)
                (set_data (retitled r t (data s)) s)
  | None => Ret s
  end.

(** Modelled from the spec: [Ext.data.Store.loadRecords], the parent
    method reached by [callParent]: replaces the records, or appends them
    when [addRecords] is set.  It fires no [add]. *)
Definition parent_loadRecords (rs : list Rec) (addRecords : bool) (s : Store)
  : Store :=
  set_data (if addRecords then data s ++ rs else rs) s.

(** Modelled from the spec: [Ext.data.Store.insert] with the index
    [indexOf] gave: for [-1] the underlying [splice] counts from the end. *)
Definition store_insert_at (fire : Fire) (i : option nat) (rs : list Rec)
  (s : Store) : Outcome :=
  match i with
  | Some n => store_insert fire n rs s
  | None => store_insert fire (pred (List.length (data s))) rs s
  end.

(** JavaScript truthiness of [record.modified && record.modified.title]. *)
Definition truthy (o : option string) : bool :=
  match o with
  | Some t => negb (String.eqb t "")
  | None => false
  end.

(** ** The class [GeoExt.data.LayerStore] *)

Section LayerStore.

(** [me.proxy.reader]. *)
Variable reader : Reader.

(** What [this.unbind] resolves to in the parent classes, if anything:
    the class itself defines [bindMap] and [unbindMap] but no [unbind]. *)
Variable inherited_unbind : option (Store -> Outcome).

(** The dispatcher that runs the listeners of an event. *)
Variable fire : Fire.

(** [me.map.getLayers()]: a [TypeError] when [me.map] is [null]. *)
Definition getLayers (s : Store) (k : Store -> Outcome) : Outcome :=
  if map s then k s else Throw s.

Definition onChangeLayer (layer : Layer) (key : string) (s : Store)
  : Outcome :=
  match findByLayer layer s with
  | Some record =>
      if String.eqb key "title"
      then record_set_title fire (rid record) (layer_get_title layer s) s
      else fire (EvUpdate record EDIT) (call (AFireUpdate (rid record)) s)
  | None => Ret s
  end.

Definition onAddLayer (layer : Layer) (s : Store) : Outcome :=
  getLayers s (fun s =>
  let index := indexOf layer (layers s) in
  let s := layer_on layer s in
  if negb (_adding s) then
    let s := set_adding true s in
    match reader layer with
    | None => Throw s
    | Some result =>
        store_insert_at fire index (records result) s
          >>= fun s => Ret (set_adding false s)
    end
  else Ret s).

Definition getByLayer (layer : Layer) (s : Store) : option Rec :=
  findByLayer layer s.

Definition onRemoveLayer (layer : Layer) (s : Store) : Outcome :=
  if negb (_removing s) then
    match getByLayer layer s with
    | Some rec =>
        let s := set_removing true s in
        let s := layer_un layer s in
        store_remove fire rec s >>= fun s => Ret (set_removing false s)
    | None => Ret s
    end
  else Ret s.

(** The [forEach] that detaches [onChangeLayer] from every layer of the
    map, then [clear()]. *)
Definition unlisten_and_clear (s : Store) : Outcome :=
  getLayers s (fun s =>
  let s := fold_left (fun s l => layer_un l s) (layers s) s in
  getLayers s (coll_clear fire)).

Definition onLoad (rs : list Rec) (successful : bool) (s : Store)
  : Outcome :=
  (if successful then
     (if negb (_addRecords s) then
        unlisten_and_clear (set_removing true s)
          >>= fun s => Ret (set_removing false s)
      else Ret s)
     >>= fun s =>
     match rs with
     | [] => Ret s
     | _ =>
         let ls := List.map getOlLayer rs in
         let s := fold_left (fun s l => layer_on l s) ls s in
         let s := set_adding true s in
         getLayers s (coll_extend fire ls)
           >>= fun s => Ret (set_adding false s)
     end
   else Ret s)
  >>= fun s => Ret (set_addRecords false s).

Definition onClear (s : Store) : Outcome :=
  unlisten_and_clear (set_removing true s)
    >>= fun s => Ret (set_removing false s).

(** The body of the [for] loop of [onAdd]. *)
Definition onAdd_record (index : nat) (r : Rec) (s : Store) : Outcome :=
  let layer := getOlLayer r in
  let s := layer_on layer s in
  if Nat.eqb index 0
  then getLayers s (coll_push fire layer)
  else getLayers s (coll_insertAt fire index layer).

Definition onAdd (rs : list Rec) (index : nat) (s : Store) : Outcome :=
  if negb (_adding s) then
    forEach (onAdd_record index) rs (set_adding true s)
      >>= fun s => Ret (set_adding false s)
  else Ret s.

Definition removeMapLayer (record : Rec) (s : Store) : Outcome :=
  getLayers s (coll_remove fire (getOlLayer record)).

Definition onRemove (record : Rec) (s : Store) : Outcome :=
  if negb (_removing s) then
    let layer := getOlLayer record in
    let s := layer_un layer s in
    getLayers s (fun s =>
    let found := existsb (Nat.eqb layer) (layers s) in
    if found then
      removeMapLayer record (set_removing true s)
        >>= fun s => Ret (set_removing false s)
    else Ret s)
  else Ret s.

Definition onStoreUpdate (record : Rec) (operation : Operation) (s : Store)
  : Outcome :=
  if Operation_eqb operation EDIT then
    if truthy (modified_title record) then
      let layer := getOlLayer record in
      let title := rtitle record in
      if negb (String.eqb title (layer_get_title layer s))
      then layer_set_title fire layer title s
      else Ret s
    else Ret s
  else Ret s.

Definition onReplace (key : nat) (oldRecord : Rec) (s : Store) : Outcome :=
  removeMapLayer oldRecord s.

(** [options && options.addRecords] is the argument [addRecords]. *)
Definition loadRecords (rs : list Rec) (addRecords : bool) (s : Store)
  : Outcome :=
  let s := if addRecords then set_addRecords true s else s in
  Ret (parent_loadRecords rs addRecords s).

Definition loadRawData (data : Layer) (append : bool) (s : Store)
  : Outcome :=
  match reader data with
  | None => Throw s
  | Some result =>
      if success result then
        loadRecords (records result) append (set_totalCount (total result) s)
          >>= fire (EvLoad (records result) true)
      else Ret s
  end.

(** [bindMap(map)], for the map whose layer collection the state holds;
    [isOlMap] is [map instanceof ol.Map]. *)
Definition bindMap (isOlMap : bool) (s : Store) : Outcome :=
  let s := if negb (map s) then set_map true s else s in
  (if isOlMap then
     forEach (fun l => loadRawData l true) (layers s) s
       >>= fun s =>
       Ret (set_layers_on true
              (fold_left (fun s l => layer_on l s) (layers s) s))
   else Ret s)
  >>= fun s => Ret (call AFireBind (set_store_on true s)).

Definition unbindMap (s : Store) : Outcome :=
  let s := if map s then set_layers_on false s else s in
  Ret (set_map false (set_store_on false s)).

(** [destroy]: calls [this.unbind()], then the parent's [destroy]. *)
Definition destroy (s : Store) : Outcome :=
  match inherited_unbind with
  | Some unbind => unbind s >>= fun s => Ret s
  | None => Throw s
  end.

(** The listeners registered for an event, run in turn. *)
Definition handle (e : Event) (s : Store) : Outcome :=
  match e with
  | EvLayersAdd l => if layers_on s then onAddLayer l s else Ret s
  | EvLayersRemove l => if layers_on s then onRemoveLayer l s else Ret s
  | EvPropertyChange l key =>
      forEach (fun _ => onChangeLayer l key)
              (filter (Nat.eqb l) (propertychange s)) s
  | EvLoad rs ok => if store_on s then onLoad rs ok s else Ret s
  | EvClear => if store_on s then onClear s else Ret s
  | EvAdd rs i => if store_on s then onAdd rs i s else Ret s
  | EvRemove r => if store_on s then onRemove r s else Ret s
  | EvUpdate r op => if store_on s then onStoreUpdate r op s else Ret s
  | EvReplace k old => if store_on s then onReplace k old s else Ret s
  end.

End LayerStore.

(** Events are dispatched synchronously; [n] bounds the nesting of events
    fired from within listeners. *)
Fixpoint dispatch (reader : Reader) (n : nat) (e : Event) (s : Store)
  : Outcome :=
  match n with
  | 0 => Fuel
  | S n' => handle reader (dispatch reader n') e s
  end.

(** ** Net effect of the guarded operations

    What an operation leaves behind when the listener it triggers finds
    its guard set. *)

(** The [add] listener of the layer collection under the [adding] guard. *)
Definition echo_add (l : Layer) (s : Store) : Store :=
  if layers_on s then layer_on l s else s.

(** One turn of the loop of [onAdd] when the echo is suppressed. *)
Definition add_one (index : nat) (l : Layer) (s : Store) : Store :=
  let s := layer_on l s in
  echo_add l
    (if Nat.eqb index 0
     then set_layers (layers s ++ [l]) (call (APush l) s)
     else set_layers (splice1 index l (layers s)) (call (AInsertAt index l) s)).

(** The whole loop of [onAdd] when the echo is suppressed. *)
Definition add_all (index : nat) (rs : list Rec) (s : Store) : Store :=
  fold_left (fun s r => add_one index (getOlLayer r) s) rs s.

(** The calls one turn of the loop of [onAdd] makes, the last one being
    the registration made by [onAddLayer] when it is listening. *)
Definition add_calls (listening : bool) (index : nat) (l : Layer) : list Act :=
  [AOn l; if Nat.eqb index 0 then APush l else AInsertAt index l]
  ++ (if listening then [AOn l] else []).

(** Detaching [onChangeLayer] from a list of layers, one call each. *)
Definition un_all (ls : list Layer) (s : Store) : Store :=
  fold_left (fun s l => layer_un l s) ls s.

(** Registering [onChangeLayer] on a list of layers, one call each. *)
Definition on_all (ls : list Layer) (s : Store) : Store :=
  fold_left (fun s l => layer_on l s) ls s.

(** [unlisten_and_clear] when [onRemoveLayer] is suppressed. *)
Definition cleared (s : Store) : Store :=
  set_layers [] (call AClear (un_all (layers s) s)).

(** [extend] when [onAddLayer] is suppressed. *)
Definition extended (ls : list Layer) (s : Store) : Store :=
  fold_left (fun s l => echo_add l (set_layers (layers s ++ [l]) s)) ls
    (call (AExtend ls) s).

(** [onLoad] on a successful load. *)
Definition loaded (rs : list Rec) (s : Store) : Store :=
  let s1 := if _addRecords s then s
            else set_removing false (cleared (set_removing true s)) in
  let s2 := match rs with
            | [] => s1
            | _ => let ls := List.map getOlLayer rs in
                   set_adding false
                     (extended ls (set_adding true (on_all ls s1)))
            end in
  set_addRecords false s2.

(** The calls of [regs] runs of [onChangeLayer] for key [title] when the
    record already has the title of the layer. *)
Definition set_calls (r : nat) (t : string) (regs : list Layer) (s : Store)
  : Store :=
  fold_left (fun s (_ : Layer) => call (ARecordSetTitle r t) s) regs s.

(** [store.insert] when [onAdd] is suppressed. *)
Definition inserted (i : option nat) (rs : list Rec) (s : Store) : Store :=
  let n := match i with
           | Some n => n
           | None => pred (List.length (data s))
           end in
  let s := call (AInsert n rs) s in
  match rs with
  | [] => s
  | _ => set_data (splice n rs (data s)) s
  end.

(** [store.remove] when [onRemove] is suppressed. *)
Definition removed (r : Rec) (s : Store) : Store :=
  let s := call (ARemove r) s in
  if existsb (fun x => Nat.eqb (rid x) (rid r)) (data s)
  then set_data (filter (fun x => negb (Nat.eqb (rid x) (rid r))) (data s)) s
  else s.

(** [getLayers().remove] when [onRemoveLayer] is suppressed. *)
Definition layer_removed (l : Layer) (s : Store) : Store :=
  let s := call (ARemoveLayer l) s in
  match indexOf l (layers s) with
  | Some _ => set_layers (remove1 l (layers s)) s
  | None => s
  end.

(** ** Bound states and propagated calls *)

(** The handlers that set a guard flag are the listeners of these events. *)
Definition guard_setting (e : Event) : bool :=
  match e with
  | EvLayersAdd _ | EvLayersRemove _ | EvLoad _ _ | EvClear
  | EvAdd _ _ | EvRemove _ => true
  | EvPropertyChange _ _ | EvUpdate _ _ | EvReplace _ _ => false
  end.

(** The state in which external changes are made: a map is bound, all
    listeners of [bindMap] are registered and no guard is set. *)
Definition bound (s : Store) : Prop :=
  map s = true /\ layers_on s = true /\ store_on s = true /\
  _adding s = false /\ _removing s = false.

(** Calls that change the layer collection or a layer. *)
Definition on_target (a : Act) : bool :=
  match a with
  | APush _ | AInsertAt _ _ | ARemoveLayer _ | AClear | AExtend _
  | ALayerSetTitle _ _ => true
  | _ => false
  end.

(** Calls that change the store or a record. *)
Definition on_model (a : Act) : bool :=
  match a with
  | AInsert _ _ | ARemove _ | ARecordSetTitle _ _ => true
  | _ => false
  end.

(** The number of calls of one kind made between two states of a run. *)
Definition propagated (kind : Act -> bool) (s s' : Store) : nat :=
  List.length (filter kind (skipn (List.length (trace s)) (trace s'))).

(** ** Sample collaborators and states *)

(** A reader that makes one record per layer; the layers 1 and 2 have
    titles. *)
Definition layer_reader : Reader :=
  fun l =>
    Some (mkResult true 1
            [mkRec (100 + l) l
               (match l with 1 => "one" | 2 => "two" | _ => "" end) None]).

(** A reader whose [read] throws. *)
Definition throwing_reader : Reader := fun _ => None.

(** A reader that reports failure. *)
Definition failing_reader : Reader :=
  fun _ => Some (mkResult false 0 [mkRec 0 0 "" None]).

(** A store that was never bound. *)
Definition fresh_store : Store :=
  mkStore false [] [] [] [] false false false false false 0 [].

(** A map with the layers 1 and 2 and a store that was never bound. *)
Definition unbound_store : Store :=
  mkStore false [1; 2] [] [(1, "one"); (2, "two")] [] false false
    false false false 0 [].

(** A store bound to a map with the layers 1 and 2, in sync. *)
Definition bound_store : Store :=
  mkStore true [1; 2]
    [mkRec 101 1 "one" None; mkRec 102 2 "two" None]
    [(1, "one"); (2, "two")] [2; 1] true true false false false 2 [].

(** The bound store after the record of layer 1 was replaced, in the
    store's data, by a record of another layer. *)
Definition replaced_store : Store :=
  mkStore true [1; 2]
    [mkRec 201 7 "seven" None; mkRec 102 2 "two" None]
    [(1, "one"); (2, "two")] [2; 1] true true false false false 2 [].

(** A store bound to a map whose only layer has no title yet. *)
Definition untitled_store : Store :=
  mkStore true [1] [mkRec 101 1 "" None] [(1, "")] [1] true true false false false
    1 [].

(** ** Order and import *)

(** The order invariant: the layers of the records, in store order, are the
    layers of the map, in collection order. *)
Definition in_sync (s : Store) : Prop :=
  List.map getOlLayer (data s) = layers s.

(** The records [loadRawData] takes from the reader for one layer. *)
Definition import_one (rd : Reader) (l : Layer) : list Rec :=
  match rd l with
  | Some res => if success res then records res else []
  | None => []
  end.

(** The records imported for a list of layers, in order. *)
Definition imported (rd : Reader) (ls : list Layer) : list Rec :=
  flat_map (import_one rd) ls.

(** Whether the reader reports success for a layer. *)
Definition imports (rd : Reader) (l : Layer) : bool :=
  match rd l with
  | Some res => success res
  | None => false
  end.

(** A reader that reports failure and hands back no record. *)
Definition empty_failing_reader : Reader :=
  fun _ => Some (mkResult false 0 []).

(** A reader that throws for layer 2 and reads the other layers. *)
Definition second_layer_throws : Reader :=
  fun l => if Nat.eqb l 2 then None else layer_reader l.

(** The bound store after the title of the record of layer 1 was edited,
    the layer still having the old title. *)
Definition edited_store : Store :=
  set_data [mkRec 101 1 "roads" (Some "one"); mkRec 102 2 "two" None]
    bound_store.

(** * Properties *)

(** ** Binding

    [bindMap] on a store never bound, for a map with two layers: the layers
    are imported in order, each gets [onChangeLayer], and all listeners are
    registered.  This is the sample state [bound_store], except that
    [_addRecords], set by the imports, is still set: the [load] events of
    [bindMap] are fired before [onLoad] is registered. *)
Example bindMap_unbound_store :
  exists s',
    bindMap layer_reader (dispatch layer_reader 1) true unbound_store = Ret s' /\
    map s' = true /\ layers s' = layers bound_store /\
    data s' = data bound_store /\ titles s' = titles bound_store /\
    propertychange s' = propertychange bound_store /\
    layers_on s' = true /\ store_on s' = true /\
    _adding s' = false /\ _removing s' = false /\ _addRecords s' = true /\
    trace s' = [AOn 1; AOn 2; AFireBind].
Proof. eexists. split; [vm_compute; reflexivity|]. repeat split. Qed.

(** ** Suppressed re-entry

    A listener invoked while the guard of its direction is set does nothing
    to the other collection.  [onAddLayer] still registers [onChangeLayer]
    on the element first: its guard test comes after [layer.on]. *)

Lemma dispatch_S rd n e s :
  dispatch rd (S n) e s = handle rd (dispatch rd n) e s.
Proof. reflexivity. Qed.

Lemma dispatch_layers_add_guarded rd n l s :
  map s = true -> _adding s = true ->
  dispatch rd (S n) (EvLayersAdd l) s = Ret (echo_add l s).
Proof.
  intros Hm Ha. unfold echo_add. simpl.
  destruct (layers_on s); [|reflexivity].
  unfold onAddLayer, getLayers. rewrite Hm. simpl. now rewrite Ha.
Qed.

Lemma dispatch_layers_remove_guarded rd n l s :
  _removing s = true ->
  dispatch rd (S n) (EvLayersRemove l) s = Ret s.
Proof.
  intros Hr. simpl. destruct (layers_on s); [|reflexivity].
  unfold onRemoveLayer. now rewrite Hr.
Qed.

Lemma dispatch_add_guarded rd n rs i s :
  _adding s = true -> dispatch rd (S n) (EvAdd rs i) s = Ret s.
Proof.
  intros Ha. simpl. destruct (store_on s); [|reflexivity].
  unfold onAdd. now rewrite Ha.
Qed.

Lemma dispatch_remove_guarded rd n r s :
  _removing s = true -> dispatch rd (S n) (EvRemove r) s = Ret s.
Proof.
  intros Hr. simpl. destruct (store_on s); [|reflexivity].
  unfold onRemove. now rewrite Hr.
Qed.

Lemma echo_add_frame l s :
  map (echo_add l s) = map s /\ _adding (echo_add l s) = _adding s /\
  _removing (echo_add l s) = _removing s /\ layers (echo_add l s) = layers s /\
  data (echo_add l s) = data s /\ layers_on (echo_add l s) = layers_on s /\
  store_on (echo_add l s) = store_on s /\
  _addRecords (echo_add l s) = _addRecords s /\ titles (echo_add l s) = titles s.
Proof. unfold echo_add. destruct (layers_on s) eqn:E; simpl; rewrite ?E; tauto. Qed.

Lemma echo_add_calls l s :
  calls (echo_add l s) = (if layers_on s then [AOn l] else []) ++ calls s.
Proof. unfold echo_add. now destruct (layers_on s). Qed.

Lemma echo_add_propertychange l s :
  propertychange (echo_add l s) =
  if layers_on s then register l (propertychange s) else propertychange s.
Proof. unfold echo_add. now destruct (layers_on s). Qed.

Lemma register_idem l p : register l (register l p) = register l p.
Proof.
  unfold register. destruct (existsb (Nat.eqb l) p) eqn:E; [now rewrite E|].
  cbn. now rewrite Nat.eqb_refl.
Qed.

(** In a registry without repetition a layer has one registration or
    none. *)
Lemma filter_registered l : forall p,
  NoDup p ->
  filter (Nat.eqb l) p = if existsb (Nat.eqb l) p then [l] else [].
Proof.
  induction p as [|x p IH]; intros Hnd; [reflexivity|].
  inversion Hnd as [|? ? Hx Hp]; subst. cbn.
  destruct (Nat.eqb l x) eqn:E.
  - apply Nat.eqb_eq in E. subst x. cbn. rewrite (IH Hp).
    destruct (existsb (Nat.eqb l) p) eqn:E2; [|reflexivity].
    apply existsb_exists in E2. destruct E2 as (y & Hy & E2).
    apply Nat.eqb_eq in E2. subst y. contradiction.
  - cbn. now apply IH.
Qed.

Lemma register_NoDup l p : NoDup p -> NoDup (register l p).
Proof.
  intros Hnd. unfold register.
  destruct (existsb (Nat.eqb l) p) eqn:E; [exact Hnd|].
  constructor; [|exact Hnd]. intros Hin.
  assert (H : existsb (Nat.eqb l) p = true).
  { apply existsb_exists. exists l. split; [exact Hin|apply Nat.eqb_refl]. }
  congruence.
Qed.

Lemma register_new l p : ~ In l p -> register l p = l :: p.
Proof.
  intros Hn. unfold register.
  destruct (existsb (Nat.eqb l) p) eqn:E; [|reflexivity].
  apply existsb_exists in E. destruct E as (y & Hy & E).
  apply Nat.eqb_eq in E. subst y. contradiction.
Qed.

Lemma register_registered l p : existsb (Nat.eqb l) (register l p) = true.
Proof.
  unfold register. destruct (existsb (Nat.eqb l) p) eqn:E; [exact E|].
  cbn. now rewrite Nat.eqb_refl.
Qed.

(** ** The model-side add handler *)

Lemma add_one_frame index l s :
  map (add_one index l s) = map s /\ _adding (add_one index l s) = _adding s /\
  _removing (add_one index l s) = _removing s /\
  data (add_one index l s) = data s /\
  layers_on (add_one index l s) = layers_on s /\
  store_on (add_one index l s) = store_on s /\
  _addRecords (add_one index l s) = _addRecords s.
Proof.
  unfold add_one.
  destruct (echo_add_frame l
    (if Nat.eqb index 0
     then set_layers (layers (layer_on l s) ++ [l]) (call (APush l) (layer_on l s))
     else set_layers (splice1 index l (layers (layer_on l s)))
            (call (AInsertAt index l) (layer_on l s))))
    as (-> & -> & -> & _ & -> & -> & -> & -> & _).
  destruct (Nat.eqb index 0); simpl; tauto.
Qed.

Lemma add_one_layers index l s :
  layers (add_one index l s) =
  if Nat.eqb index 0 then layers s ++ [l] else splice1 index l (layers s).
Proof.
  unfold add_one.
  match goal with |- layers (echo_add _ ?x) = _ =>
    destruct (echo_add_frame l x) as (_ & _ & _ & -> & _) end.
  now destruct (Nat.eqb index 0).
Qed.

Lemma onAdd_record_guarded rd n index r s :
  map s = true -> _adding s = true ->
  onAdd_record (dispatch rd (S n)) index r s
  = Ret (add_one index (getOlLayer r) s).
Proof.
  intros Hm Ha. unfold onAdd_record, getLayers, add_one.
  cbn [map layer_on set_propertychange call].
  rewrite Hm. destruct (Nat.eqb index 0).
  - unfold coll_push, coll_push_raw. now rewrite dispatch_layers_add_guarded.
  - unfold coll_insertAt. now rewrite dispatch_layers_add_guarded.
Qed.

Lemma onAdd_loop rd n index rs : forall s,
  map s = true -> _adding s = true ->
  forEach (onAdd_record (dispatch rd (S n)) index) rs s
  = Ret (add_all index rs s).
Proof.
  induction rs as [|r rs IH]; intros s Hm Ha; [reflexivity|].
  cbn [forEach add_all fold_left].
  rewrite onAdd_record_guarded by assumption. cbn [bind].
  destruct (add_one_frame index (getOlLayer r) s) as (Hm' & Ha' & _).
  apply IH; congruence.
Qed.

Lemma add_all_frame index rs : forall s,
  map (add_all index rs s) = map s /\
  _adding (add_all index rs s) = _adding s /\
  _removing (add_all index rs s) = _removing s /\
  data (add_all index rs s) = data s /\
  layers_on (add_all index rs s) = layers_on s /\
  store_on (add_all index rs s) = store_on s /\
  _addRecords (add_all index rs s) = _addRecords s.
Proof.
  induction rs as [|r rs IH]; intros s; [cbn; tauto|].
  cbn [add_all fold_left]. fold (add_all index rs (add_one index (getOlLayer r) s)).
  destruct (IH (add_one index (getOlLayer r) s)) as (-> & -> & -> & -> & -> & -> & ->).
  apply add_one_frame.
Qed.

Lemma add_all_layers index rs : forall s,
  layers (add_all index rs s) =
  if Nat.eqb index 0 then layers s ++ List.map getOlLayer rs
  else fold_left (fun ls l => splice1 index l ls) (List.map getOlLayer rs)
         (layers s).
Proof.
  induction rs as [|r rs IH]; intros s.
  - cbn. destruct (Nat.eqb index 0); [now rewrite app_nil_r|reflexivity].
  - cbn [add_all fold_left List.map].
    fold (add_all index rs (add_one index (getOlLayer r) s)).
    rewrite IH, add_one_layers.
    destruct (Nat.eqb index 0); [now rewrite <- app_assoc|reflexivity].
Qed.

Lemma splice1_nth {A} i (x : A) xs :
  i <= List.length xs -> nth_error (splice1 i x xs) i = Some x.
Proof.
  intros H. unfold splice1.
  rewrite nth_error_app2 by (rewrite length_firstn; lia).
  rewrite length_firstn, Nat.min_l by lia. now rewrite Nat.sub_diag.
Qed.

(** Model-side add, general form: with the [adding] guard clear and a map
    bound, [onAdd] returns with the guard clear again and the store's records
    untouched; for index 0 the layers are appended, in order, at the end of
    the collection, otherwise each is spliced in at [index]. *)
Lemma onAdd_layers rd n rs index s :
  map s = true -> _adding s = false ->
  exists s',
    onAdd (dispatch rd (S n)) rs index s = Ret s' /\
    _adding s' = false /\ _removing s' = _removing s /\ data s' = data s /\
    layers s' =
      (if Nat.eqb index 0 then layers s ++ List.map getOlLayer rs
       else fold_left (fun ls l => splice1 index l ls) (List.map getOlLayer rs)
              (layers s)) /\
    s' = set_adding false (add_all index rs (set_adding true s)).
Proof.
  intros Hm Ha. unfold onAdd. rewrite Ha. cbn [negb].
  rewrite onAdd_loop by (cbn; auto). cbn [bind].
  eexists; split; [reflexivity|].
  destruct (add_all_frame index rs (set_adding true s))
    as (_ & _ & Hr & Hd & _).
  cbn [_adding _removing data layers set_adding].
  rewrite Hr, Hd, add_all_layers. cbn. auto.
Qed.

Lemma add_one_calls index l s :
  calls (add_one index l s) = rev (add_calls (layers_on s) index l) ++ calls s.
Proof.
  unfold add_one, add_calls. rewrite echo_add_calls.
  destruct (Nat.eqb index 0), (layers_on s) eqn:E; cbn; rewrite ?E; reflexivity.
Qed.

Lemma add_all_trace index rs : forall s,
  trace (add_all index rs s) =
  trace s ++ flat_map (fun r => add_calls (layers_on s) index (getOlLayer r)) rs.
Proof.
  unfold trace.
  induction rs as [|r rs IH]; intros s; [cbn; now rewrite app_nil_r|].
  cbn [add_all fold_left flat_map].
  fold (add_all index rs (add_one index (getOlLayer r) s)).
  rewrite IH, add_one_calls, rev_app_distr, rev_involutive.
  destruct (add_one_frame index (getOlLayer r) s) as (_ & _ & _ & _ & -> & _).
  now rewrite <- !app_assoc.
Qed.

(** C3, as the code has it: with the [adding] guard clear and a map bound,
    [onAdd] registers the change listener on the layer of each added record
    and then, for index 0, pushes the layer, which puts it at the END of the
    layer collection (after all layers already there, in the order of the
    records); for an index greater than 0 it calls [insertAt(index, layer)],
    which splices the layer in at that index. *)
Theorem onAdd_position rd n rs index s :
  map s = true -> _adding s = false ->
  exists s',
    onAdd (dispatch rd (S n)) rs index s = Ret s' /\
    trace s' =
      trace s ++
      flat_map (fun r => add_calls (layers_on s) index (getOlLayer r)) rs /\
    layers s' =
      if Nat.eqb index 0 then layers s ++ List.map getOlLayer rs
      else fold_left (fun ls l => splice1 index l ls) (List.map getOlLayer rs)
             (layers s).
Proof.
  intros Hm Ha. unfold onAdd. rewrite Ha. cbn [negb].
  rewrite onAdd_loop by (cbn; auto). cbn [bind].
  eexists; split; [reflexivity|]. split.
  - exact (add_all_trace index rs (set_adding true s)).
  - exact (add_all_layers index rs (set_adding true s)).
Qed.

Lemma onAdd_position_witness :
  exists s',
    onAdd (dispatch layer_reader 1) [mkRec 50 9 "nine" None] 1 bound_store
      = Ret s' /\
    trace s' = [AOn 9; AInsertAt 1 9; AOn 9] /\
    layers s' = [1; 9; 2].
Proof.
  exact (onAdd_position layer_reader 0 [mkRec 50 9 "nine" None] 1 bound_store
           eq_refl eq_refl).
Defined.

(** C3 as stated fails: a record added at index 0 of the store has its
    layer pushed, which leaves the layers already in the collection in front
    of it; it does not become the first element. *)
Lemma onAdd_front_counterexample :
  exists s',
    onAdd (dispatch layer_reader 1) [mkRec 50 9 "nine" None] 0 bound_store
      = Ret s' /\
    layers s' = [1; 2; 9] /\
    hd_error (layers s') <> Some 9.
Proof.
  eexists. split; [reflexivity|]. split; [reflexivity|]. discriminate.
Qed.

(** ** Registrations of the change listener *)

Lemma add_one_propertychange index l s :
  propertychange (add_one index l s) = register l (propertychange s).
Proof.
  unfold add_one. rewrite echo_add_propertychange.
  destruct (Nat.eqb index 0); cbn; destruct (layers_on s);
    rewrite ?register_idem; reflexivity.
Qed.

(** C10, as the code has it: for a record added to a bound store with the
    [adding] guard clear, [layer.on] is called twice for its layer: [onAdd]
    calls it before it pushes (or inserts) the layer, and the [add] event of
    the collection then runs [onAddLayer], which calls it before it looks at
    the guard.  Both calls register the same listener with the same scope,
    so the layer ends with one registration of [onChangeLayer], and a later
    [propertychange] of that layer runs [onChangeLayer] once. *)
Theorem onAdd_registers_once rd n r index s :
  map s = true -> _adding s = false -> layers_on s = true ->
  NoDup (propertychange s) ->
  exists s',
    onAdd (dispatch rd (S n)) [r] index s = Ret s' /\
    trace s' =
      trace s ++ [AOn (getOlLayer r);
                  if Nat.eqb index 0 then APush (getOlLayer r)
                  else AInsertAt index (getOlLayer r);
                  AOn (getOlLayer r)] /\
    propertychange s' = register (getOlLayer r) (propertychange s) /\
    count (getOlLayer r) (propertychange s') = 1 /\
    forall f key,
      handle rd f (EvPropertyChange (getOlLayer r) key) s' =
      forEach (fun _ => onChangeLayer f (getOlLayer r) key)
              [getOlLayer r] s'.
Proof.
  intros Hm Ha Hl Hnd. unfold onAdd. rewrite Ha. cbn [negb].
  rewrite onAdd_loop by (cbn; auto). cbn [bind].
  eexists; split; [reflexivity|].
  assert (Hp : propertychange
                 (set_adding false (add_all index [r] (set_adding true s)))
               = register (getOlLayer r) (propertychange s)).
  { cbn [propertychange set_adding add_all fold_left].
    now rewrite add_one_propertychange. }
  assert (Hf : filter (Nat.eqb (getOlLayer r))
                 (register (getOlLayer r) (propertychange s))
               = [getOlLayer r]).
  { rewrite filter_registered by now apply register_NoDup.
    now rewrite register_registered. }
  split; [|split; [exact Hp|split]].
  - etransitivity; [exact (add_all_trace index [r] (set_adding true s))|].
    cbn. rewrite Hl. unfold add_calls. reflexivity.
  - unfold count. now rewrite Hp, Hf.
  - intros f key. cbn [handle]. now rewrite Hp, Hf.
Qed.

Lemma onAdd_registers_once_witness :
  exists s',
    onAdd (dispatch layer_reader 1) [mkRec 50 9 "nine" None] 0 bound_store
      = Ret s' /\
    trace s' = [AOn 9; APush 9; AOn 9] /\
    propertychange s' = [9; 2; 1] /\
    count 9 (propertychange s') = 1 /\
    forall f key,
      handle layer_reader f (EvPropertyChange 9 key) s' =
      forEach (fun _ => onChangeLayer f 9 key) [9] s'.
Proof.
  assert (Hnd : NoDup (propertychange bound_store)).
  { repeat constructor; simpl; intuition discriminate. }
  exact (onAdd_registers_once layer_reader 0 (mkRec 50 9 "nine" None) 0
           bound_store eq_refl eq_refl eq_refl Hnd).
Defined.

(** C10 as stated fails: the record for layer 9 is inserted at the front of
    the bound store, which calls [layer.on] twice for layer 9, and the layer
    has one registration of [onChangeLayer], not two; when layer 9 then
    changes its opacity the handler runs once: the generic update is fired
    once. *)
Lemma onAdd_registers_twice_counterexample :
  exists s1 s2,
    store_insert (dispatch layer_reader 3) 0 [mkRec 50 9 "nine" None]
      bound_store = Ret s1 /\
    trace s1 = [AInsert 0 [mkRec 50 9 "nine" None]; AOn 9; APush 9; AOn 9] /\
    count 9 (propertychange s1) = 1 /\
    count 9 (propertychange s1) <> 2 /\
    dispatch layer_reader 3 (EvPropertyChange 9 "opacity") s1 = Ret s2 /\
    trace s2 = trace s1 ++ [AFireUpdate 50].
Proof.
  do 2 eexists.
  split; [vm_compute; reflexivity|].
  split; [reflexivity|]. split; [reflexivity|].
  split; [discriminate|].
  split; vm_compute; reflexivity.
Qed.

(** ** Clearing and extending the layer collection under a guard *)

Lemma set_layers_same s : layers s = [] -> set_layers [] s = s.
Proof. destruct s; cbn; intros ->; reflexivity. Qed.

Lemma coll_clear_loop_guarded rd k : forall n s,
  _removing s = true -> List.length (layers s) <= n ->
  coll_clear_loop (dispatch rd (S k)) n s = Ret (set_layers [] s).
Proof.
  induction n as [|n IH]; intros s Hr Hn.
  - cbn. destruct (layers s) eqn:E; [|cbn in Hn; lia].
    now rewrite set_layers_same.
  - cbn [coll_clear_loop]. destruct (rev (layers s)) as [|l front] eqn:E.
    + apply (f_equal (@rev _)) in E. rewrite rev_involutive in E. cbn in E.
      now rewrite set_layers_same.
    + rewrite dispatch_layers_remove_guarded by exact Hr. cbn [bind].
      rewrite IH; [reflexivity|exact Hr|].
      cbn [layers set_layers]. rewrite length_rev.
      apply (f_equal (@List.length _)) in E. rewrite length_rev in E.
      cbn in E. lia.
Qed.

Lemma un_all_frame ls : forall s,
  map (un_all ls s) = map s /\ layers (un_all ls s) = layers s /\
  data (un_all ls s) = data s /\ _adding (un_all ls s) = _adding s /\
  _removing (un_all ls s) = _removing s /\
  _addRecords (un_all ls s) = _addRecords s /\
  layers_on (un_all ls s) = layers_on s /\ store_on (un_all ls s) = store_on s.
Proof.
  induction ls as [|l ls IH]; intros s; [cbn; tauto|].
  cbn [un_all fold_left]. fold (un_all ls (layer_un l s)).
  destruct (IH (layer_un l s)) as (-> & -> & -> & -> & -> & -> & -> & ->).
  cbn. tauto.
Qed.

Lemma un_all_calls ls : forall s,
  calls (un_all ls s) = rev (List.map AUn ls) ++ calls s.
Proof.
  induction ls as [|l ls IH]; intros s; [reflexivity|].
  cbn [un_all fold_left List.map rev]. fold (un_all ls (layer_un l s)).
  rewrite IH. cbn. now rewrite <- app_assoc.
Qed.

Lemma on_all_frame ls : forall s,
  map (on_all ls s) = map s /\ layers (on_all ls s) = layers s /\
  data (on_all ls s) = data s /\ _adding (on_all ls s) = _adding s /\
  _removing (on_all ls s) = _removing s /\
  _addRecords (on_all ls s) = _addRecords s /\
  layers_on (on_all ls s) = layers_on s /\ store_on (on_all ls s) = store_on s.
Proof.
  induction ls as [|l ls IH]; intros s; [cbn; tauto|].
  cbn [on_all fold_left]. fold (on_all ls (layer_on l s)).
  destruct (IH (layer_on l s)) as (-> & -> & -> & -> & -> & -> & -> & ->).
  cbn. tauto.
Qed.

Lemma on_all_calls ls : forall s,
  calls (on_all ls s) = rev (List.map AOn ls) ++ calls s.
Proof.
  induction ls as [|l ls IH]; intros s; [reflexivity|].
  cbn [on_all fold_left List.map rev]. fold (on_all ls (layer_on l s)).
  rewrite IH. cbn. now rewrite <- app_assoc.
Qed.

Lemma unlisten_and_clear_guarded rd k s :
  map s = true -> _removing s = true ->
  unlisten_and_clear (dispatch rd (S k)) s = Ret (cleared s).
Proof.
  intros Hm Hr. unfold unlisten_and_clear, getLayers. rewrite Hm.
  fold (un_all (layers s) s).
  destruct (un_all_frame (layers s) s) as (Hm' & Hl & _ & _ & Hr' & _).
  rewrite Hm', Hm. unfold coll_clear.
  rewrite coll_clear_loop_guarded; [reflexivity| |].
  - cbn. congruence.
  - cbn. lia.
Qed.

Lemma extend_loop_guarded rd k ls : forall s,
  map s = true -> _adding s = true ->
  forEach (coll_push_raw (dispatch rd (S k))) ls s =
  Ret (fold_left (fun s l => echo_add l (set_layers (layers s ++ [l]) s)) ls s).
Proof.
  induction ls as [|l ls IH]; intros s Hm Ha; [reflexivity|].
  cbn [forEach fold_left]. unfold coll_push_raw at 1.
  rewrite dispatch_layers_add_guarded by (cbn; assumption). cbn [bind].
  destruct (echo_add_frame l (set_layers (layers s ++ [l]) s))
    as (Hm' & Ha' & _).
  apply IH; [rewrite Hm'|rewrite Ha']; assumption.
Qed.

Lemma coll_extend_guarded rd k ls s :
  map s = true -> _adding s = true ->
  coll_extend (dispatch rd (S k)) ls s = Ret (extended ls s).
Proof.
  intros Hm Ha. unfold coll_extend, extended.
  now rewrite extend_loop_guarded.
Qed.

Lemma extend_fold_frame ls : forall s,
  let s' := fold_left (fun s l => echo_add l (set_layers (layers s ++ [l]) s))
              ls s in
  map s' = map s /\ data s' = data s /\ _adding s' = _adding s /\
  _removing s' = _removing s /\ _addRecords s' = _addRecords s /\
  layers_on s' = layers_on s /\ store_on s' = store_on s /\
  layers s' = layers s ++ ls /\
  calls s' = (if layers_on s then rev (List.map AOn ls) else []) ++ calls s.
Proof.
  induction ls as [|l ls IH]; intros s.
  - cbn. rewrite app_nil_r. destruct (layers_on s); tauto.
  - cbn [fold_left]. cbv zeta in IH |- *.
    destruct (IH (echo_add l (set_layers (layers s ++ [l]) s)))
      as (-> & -> & -> & -> & -> & -> & -> & -> & ->).
    rewrite echo_add_calls.
    destruct (echo_add_frame l (set_layers (layers s ++ [l]) s))
      as (-> & -> & -> & -> & -> & -> & -> & -> & _).
    cbn [map data _adding _removing _addRecords layers_on store_on layers
         calls set_layers List.map rev].
    rewrite <- !app_assoc. cbn [app].
    destruct (layers_on s); cbn; rewrite <- ?app_assoc; tauto.
Qed.

Lemma extended_frame ls s :
  map (extended ls s) = map s /\ data (extended ls s) = data s /\
  _adding (extended ls s) = _adding s /\
  _removing (extended ls s) = _removing s /\
  _addRecords (extended ls s) = _addRecords s /\
  layers_on (extended ls s) = layers_on s /\
  store_on (extended ls s) = store_on s /\
  layers (extended ls s) = layers s ++ ls /\
  calls (extended ls s) =
    (if layers_on s then rev (List.map AOn ls) else []) ++ AExtend ls :: calls s.
Proof. exact (extend_fold_frame ls (call (AExtend ls) s)). Qed.

(** ** The load handler *)

Lemma onLoad_loaded rd k rs s :
  map s = true ->
  onLoad (dispatch rd (S k)) rs true s = Ret (loaded rs s).
Proof.
  intros Hm. unfold onLoad, loaded.
  set (s1 := if _addRecords s then s
             else set_removing false (cleared (set_removing true s))).
  assert (E1 : (if negb (_addRecords s)
                then unlisten_and_clear (dispatch rd (S k)) (set_removing true s)
                       >>= fun s => Ret (set_removing false s)
                else Ret s) = Ret s1).
  { subst s1. destruct (_addRecords s); [reflexivity|]. cbn [negb].
    now rewrite unlisten_and_clear_guarded. }
  rewrite E1. cbn [bind].
  assert (Hm1 : map s1 = true).
  { subst s1. destruct (_addRecords s); [assumption|].
    unfold cleared. cbn [map set_removing set_layers call].
    destruct (un_all_frame (layers (set_removing true s)) (set_removing true s))
      as (-> & _). exact Hm. }
  destruct rs as [|r rs]; [reflexivity|].
  set (ls := List.map getOlLayer (r :: rs)).
  fold (on_all ls s1).
  unfold getLayers. cbn [map set_adding].
  destruct (on_all_frame ls s1) as (Hm2 & _). rewrite Hm2, Hm1.
  rewrite coll_extend_guarded by (cbn [map _adding set_adding]; congruence).
  reflexivity.
Qed.

Lemma cleared_frame s :
  map (cleared s) = map s /\ data (cleared s) = data s /\
  _adding (cleared s) = _adding s /\ _removing (cleared s) = _removing s /\
  _addRecords (cleared s) = _addRecords s /\
  layers_on (cleared s) = layers_on s /\ store_on (cleared s) = store_on s /\
  layers (cleared s) = [] /\
  calls (cleared s) = AClear :: rev (List.map AUn (layers s)) ++ calls s.
Proof.
  unfold cleared. cbn. rewrite un_all_calls.
  destruct (un_all_frame (layers s) s) as (-> & _ & -> & -> & -> & -> & -> & ->).
  tauto.
Qed.

(** The calls [onLoad] makes on a successful load. *)
Lemma loaded_trace rs s :
  trace (loaded rs s) =
  trace s
  ++ (if _addRecords s then [] else List.map AUn (layers s) ++ [AClear])
  ++ match rs with
     | [] => []
     | _ => let ls := List.map getOlLayer rs in
            List.map AOn ls ++ AExtend ls ::
            (if layers_on s then List.map AOn ls else [])
     end.
Proof.
  unfold loaded, trace.
  set (s1 := if _addRecords s then s
             else set_removing false (cleared (set_removing true s))).
  assert (H1 : calls s1 =
               rev (if _addRecords s then []
                    else List.map AUn (layers s) ++ [AClear]) ++ calls s
               /\ layers_on s1 = layers_on s).
  { subst s1. destruct (_addRecords s); [split; reflexivity|].
    cbn [calls layers_on set_removing].
    destruct (cleared_frame (set_removing true s))
      as (_ & _ & _ & _ & _ & -> & _ & _ & ->).
    cbn. rewrite rev_app_distr. cbn. split; reflexivity. }
  destruct H1 as (Hc & Hon).
  destruct rs as [|r rs].
  - cbn [calls set_addRecords]. rewrite Hc, rev_app_distr, rev_involutive.
    now rewrite app_nil_r.
  - set (ls := List.map getOlLayer (r :: rs)). cbv zeta.
    cbn [calls set_addRecords set_adding].
    destruct (extended_frame ls (set_adding true (on_all ls s1)))
      as (_ & _ & _ & _ & _ & _ & _ & _ & ->).
    cbn [layers_on calls set_adding].
    destruct (on_all_frame ls s1) as (_ & _ & _ & _ & _ & _ & -> & _).
    rewrite on_all_calls, Hc, Hon.
    generalize (if _addRecords s then []
                else List.map AUn (layers s) ++ [AClear]).
    intros us.
    destruct (layers_on s);
      repeat first [rewrite rev_app_distr | rewrite rev_involutive
                   | rewrite <- app_assoc | progress cbn [rev app]];
      reflexivity.
Qed.

Lemma loaded_frame rs s :
  layers (loaded rs s) =
    (if _addRecords s then layers s else []) ++ List.map getOlLayer rs /\
  data (loaded rs s) = data s /\ _addRecords (loaded rs s) = false /\
  _adding (loaded rs s) = (match rs with [] => _adding s | _ => false end) /\
  _removing (loaded rs s) = (if _addRecords s then _removing s else false).
Proof.
  unfold loaded.
  set (s1 := if _addRecords s then s
             else set_removing false (cleared (set_removing true s))).
  assert (H1 : layers s1 = (if _addRecords s then layers s else []) /\
               data s1 = data s /\ _adding s1 = _adding s /\
               _removing s1 = if _addRecords s then _removing s else false).
  { subst s1. destruct (_addRecords s); [tauto|].
    cbn [layers data _adding _removing set_removing].
    destruct (cleared_frame (set_removing true s))
      as (_ & -> & -> & _ & _ & _ & _ & -> & _). cbn. tauto. }
  destruct H1 as (Hl & Hd & Ha & Hr).
  destruct rs as [|r rs].
  - cbn [layers data _addRecords _adding _removing set_addRecords List.map].
    rewrite app_nil_r. tauto.
  - set (ls := List.map getOlLayer (r :: rs)). cbv zeta.
    cbn [layers data _addRecords _adding _removing set_addRecords set_adding].
    destruct (extended_frame ls (set_adding true (on_all ls s1)))
      as (_ & -> & _ & -> & _ & _ & _ & -> & _).
    cbn [layers data _removing set_adding].
    destruct (on_all_frame ls s1) as (_ & -> & -> & _ & -> & _).
    rewrite Hl, Hd, Hr. tauto.
Qed.

(** C1, as the code has it: on a successful load with a map bound, [onLoad]
    first, and only when the load was not additive ([_addRecords] clear),
    detaches [onChangeLayer] from every layer of the map and clears the
    layer collection, the [remove] events being suppressed by the [removing]
    guard; then, additive or not, whenever at least one record was loaded,
    it registers [onChangeLayer] on the layer of each record and extends the
    collection with these layers, the [add] events being suppressed by the
    [adding] guard (their listener only registers [onChangeLayer] once
    more).  The store's records are not touched and [_addRecords] ends
    clear.  So the clear step is the conditional one and the extend step
    the unconditional one. *)
Theorem onLoad_success rd k rs s :
  map s = true ->
  exists s',
    onLoad (dispatch rd (S k)) rs true s = Ret s' /\
    trace s' =
      trace s
      ++ (if _addRecords s then [] else List.map AUn (layers s) ++ [AClear])
      ++ match rs with
         | [] => []
         | _ => let ls := List.map getOlLayer rs in
                List.map AOn ls ++ AExtend ls ::
                (if layers_on s then List.map AOn ls else [])
         end /\
    layers s' =
      (if _addRecords s then layers s else []) ++ List.map getOlLayer rs /\
    data s' = data s /\ _addRecords s' = false.
Proof.
  intros Hm. exists (loaded rs s).
  split; [now apply onLoad_loaded|].
  split; [apply loaded_trace|].
  destruct (loaded_frame rs s) as (Hl & Hd & Hf & _). auto.
Qed.

Lemma onLoad_success_witness :
  exists s',
    onLoad (dispatch layer_reader 1)
      [mkRec 50 9 "nine" None; mkRec 51 8 "eight" None] true bound_store
      = Ret s' /\
    trace s' = [AUn 1; AUn 2; AClear; AOn 9; AOn 8; AExtend [9; 8];
                AOn 9; AOn 8] /\
    layers s' = [9; 8] /\
    data s' = data bound_store /\ _addRecords s' = false.
Proof.
  exact (onLoad_success layer_reader 0
           [mkRec 50 9 "nine" None; mkRec 51 8 "eight" None] bound_store
           eq_refl).
Defined.

(** C1 as stated fails: on an additive load [onLoad] does not clear the
    layer collection, and it does extend it. *)
Lemma onLoad_additive_counterexample :
  exists s',
    onLoad (dispatch layer_reader 1) [mkRec 50 9 "nine" None] true
      (set_addRecords true bound_store) = Ret s' /\
    trace s' = [AOn 9; AExtend [9]; AOn 9] /\
    ~ In AClear (trace s') /\
    layers s' = [1; 2; 9].
Proof.
  eexists. split; [vm_compute; reflexivity|].
  split; [reflexivity|]. split; [|reflexivity].
  vm_compute. intros [H|[H|[H|[]]]]; discriminate H.
Qed.

(** ** Import failure *)

(** The two load paths on a failed import: [onLoad] with the success flag
    false only deletes [_addRecords]: layers, records, layer titles and
    listener registrations stay as they are and no call is made on a
    collaborator.  [loadRawData] with a reader result whose [success] is
    false leaves the whole state as it is and fires no [load]. *)
Lemma import_failure_no_mutation rd f raw append rs s res :
  rd raw = Some res -> success res = false ->
  loadRawData rd f raw append s = Ret s /\
  exists s',
    onLoad f rs false s = Ret s' /\
    layers s' = layers s /\ data s' = data s /\
    titles s' = titles s /\ propertychange s' = propertychange s /\
    layers_on s' = layers_on s /\ store_on s' = store_on s /\
    _adding s' = _adding s /\ _removing s' = _removing s /\
    calls s' = calls s.
Proof.
  intros Hrd Hs. split.
  - unfold loadRawData. now rewrite Hrd, Hs.
  - exists (set_addRecords false s). cbn. tauto.
Qed.

(** C9 on the code: [onAddLayer], the handler that calls the reader
    itself, never looks at [result.success].  A layer is pushed onto the
    layer collection of the bound store while the reader reports failure:
    [layer.on] is called and the layer is registered, and the records of the
    failed result are passed to [insert]; when the failed result carries a
    record, the store gains it.  [loadRawData] tests [result.success] before
    it touches anything. *)
Theorem onAddLayer_ignores_failure :
  (exists s',
     coll_push (dispatch failing_reader 3) 9 bound_store = Ret s' /\
     trace s' = [APush 9; AOn 9; AInsert 2 [mkRec 0 0 "" None]] /\
     data s' = data bound_store ++ [mkRec 0 0 "" None] /\
     propertychange s' = 9 :: propertychange bound_store) /\
  (exists s',
     coll_push (dispatch empty_failing_reader 3) 9 bound_store = Ret s' /\
     trace s' = [APush 9; AOn 9; AInsert 2 []] /\
     data s' = data bound_store /\
     propertychange s' = 9 :: propertychange bound_store) /\
  loadRawData failing_reader (dispatch failing_reader 3) 9 true bound_store
    = Ret bound_store.
Proof.
  split; [|split; [|reflexivity]].
  - eexists. split; [vm_compute; reflexivity|]. repeat split.
  - eexists. split; [vm_compute; reflexivity|]. repeat split.
Qed.

(** ** The change handler of a layer *)

(** Records are distinct objects: the record found for a layer is the one
    found under its own identity. *)
Lemma find_by_rid l r : forall d,
  NoDup (List.map rid d) ->
  find (fun x => Nat.eqb (getOlLayer x) l) d = Some r ->
  find (fun x => Nat.eqb (rid x) (rid r)) d = Some r /\ getOlLayer r = l.
Proof.
  induction d as [|x d IH]; intros Hnd Hf; [discriminate|].
  cbn in Hf |- *. inversion Hnd as [|? ? Hx Hd]; subst.
  destruct (Nat.eqb (getOlLayer x) l) eqn:E.
  - injection Hf as ->. rewrite Nat.eqb_refl. split; [reflexivity|].
    now apply Nat.eqb_eq.
  - destruct (IH Hd Hf) as (Hr & Hl). split; [|exact Hl].
    destruct (Nat.eqb (rid x) (rid r)) eqn:E2; [|exact Hr].
    apply Nat.eqb_eq in E2. exfalso. apply Hx. rewrite E2.
    apply in_map. apply find_some in Hr. tauto.
Qed.

(** The [update] listener finds nothing to do for a record whose title is
    the title of its layer. *)
Lemma onStoreUpdate_in_sync f r op s :
  rtitle r = layer_get_title (getOlLayer r) s ->
  onStoreUpdate f r op s = Ret s.
Proof.
  intros H. unfold onStoreUpdate.
  destruct (Operation_eqb op EDIT); [|reflexivity].
  destruct (truthy (modified_title r)); [|reflexivity].
  rewrite H, String.eqb_refl. reflexivity.
Qed.

Lemma dispatch_update_in_sync rd n r op s :
  rtitle r = layer_get_title (getOlLayer r) s ->
  dispatch rd (S n) (EvUpdate r op) s = Ret s.
Proof.
  intros H. cbn [dispatch handle].
  destruct (store_on s); [|reflexivity].
  now apply onStoreUpdate_in_sync.
Qed.

(** The title branch of [onChangeLayer]. *)
Lemma onChangeLayer_title rd n l r s :
  NoDup (List.map rid (data s)) ->
  findByLayer l s = Some r ->
  onChangeLayer (dispatch rd (S n)) l "title" s =
  Ret (let t := layer_get_title l s in
       let s1 := call (ARecordSetTitle (rid r) t) s in
       if String.eqb (rtitle r) t then s1
       else set_data (retitled (rid r) t (data s)) s1).
Proof.
  intros Hnd Hf. unfold onChangeLayer. rewrite Hf. cbn [String.eqb Ascii.eqb Bool.eqb].
  destruct (find_by_rid l r (data s) Hnd Hf) as (Hr & Hl).
  unfold record_set_title. cbn [data call]. rewrite Hr. cbv zeta.
  destruct (String.eqb (rtitle r) (layer_get_title l s)); [reflexivity|].
  apply dispatch_update_in_sync.
  change (getOlLayer (edit_title (layer_get_title l s) r)) with (getOlLayer r).
  rewrite Hl. reflexivity.
Qed.

Lemma set_calls_frame r t regs : forall s,
  data (set_calls r t regs s) = data s /\
  layers (set_calls r t regs s) = layers s /\
  titles (set_calls r t regs s) = titles s /\
  propertychange (set_calls r t regs s) = propertychange s /\
  _adding (set_calls r t regs s) = _adding s /\
  _removing (set_calls r t regs s) = _removing s /\
  calls (set_calls r t regs s) =
    repeat (ARecordSetTitle r t) (List.length regs) ++ calls s.
Proof.
  induction regs as [|x regs IH]; intros s; [cbn; tauto|].
  cbn [set_calls fold_left]. fold (set_calls r t regs (call (ARecordSetTitle r t) s)).
  destruct (IH (call (ARecordSetTitle r t) s)) as (-> & -> & -> & -> & -> & -> & ->).
  cbn [data layers titles propertychange _adding _removing calls call
       List.length].
  cbn [repeat]. rewrite repeat_cons, <- !app_assoc. cbn [app]. tauto.
Qed.

(** Every registration of [onChangeLayer] runs on a title change; when the
    record already has the layer's title each run is a [record.set] that
    changes nothing. *)
Lemma title_listeners_in_sync f l r regs : forall s,
  NoDup (List.map rid (data s)) ->
  findByLayer l s = Some r ->
  rtitle r = layer_get_title l s ->
  forEach (fun _ : Layer => onChangeLayer f l "title") regs s =
  Ret (set_calls (rid r) (rtitle r) regs s).
Proof.
  induction regs as [|x regs IH]; intros s Hnd Hf Ht; [reflexivity|].
  cbn [forEach set_calls fold_left].
  assert (E : onChangeLayer f l "title" s =
              Ret (call (ARecordSetTitle (rid r) (rtitle r)) s)).
  { unfold onChangeLayer. rewrite Hf. cbn [String.eqb Ascii.eqb Bool.eqb].
    destruct (find_by_rid l r (data s) Hnd Hf) as (Hr & _).
    unfold record_set_title. cbn [data call]. rewrite Hr, <- Ht.
    now rewrite String.eqb_refl. }
  rewrite E. cbn [bind]. apply IH; assumption.
Qed.

Lemma onStoreUpdate_first_record rd n r op s :
  NoDup (List.map rid (data s)) ->
  findByLayer (getOlLayer r) s = Some r ->
  exists s',
    onStoreUpdate (dispatch rd (S n)) r op s = Ret s' /\
    data s' = data s /\ layers s' = layers s /\
    propertychange s' = propertychange s /\
    _adding s' = _adding s /\ _removing s' = _removing s /\
    exists rest, calls s' = rest ++ calls s.
Proof.
  intros Hnd Hf. unfold onStoreUpdate.
  destruct (Operation_eqb op EDIT);
    [|exists s; repeat split; exists []; reflexivity].
  destruct (truthy (modified_title r));
    [|exists s; repeat split; exists []; reflexivity].
  destruct (negb (rtitle r =? layer_get_title (getOlLayer r) s)%string);
    [|exists s; repeat split; exists []; reflexivity].
  unfold layer_set_title. cbn [dispatch handle].
  cbn [propertychange set_titles call].
  rewrite (title_listeners_in_sync _ (getOlLayer r) r); cycle 1.
  - exact Hnd.
  - exact Hf.
  - unfold layer_get_title. cbn. now rewrite Nat.eqb_refl.
  - eexists. split; [reflexivity|].
    match goal with |- context [set_calls ?a ?b ?c ?d] =>
      destruct (set_calls_frame a b c d) as (-> & -> & _ & -> & -> & -> & ->) end.
    repeat split.
    eexists (_ ++ [_]). rewrite <- app_assoc. reflexivity.
Qed.



(** ** Replaced records *)

Lemma remove1_absent l : forall xs, indexOf l xs = None -> remove1 l xs = xs.
Proof.
  induction xs as [|x xs IH]; [reflexivity|]. cbn.
  destruct (Nat.eqb x l); [discriminate|].
  destruct (indexOf l xs); [discriminate|]. intros _. now rewrite IH.
Qed.

(** [onReplace] only calls [removeMapLayer] for the old record.  With a map
    bound and no record of the store bound to the old record's layer any
    more, the layer is removed from the layer collection if it is there, and
    that is all: [layer.un] is not called, [_removing] is not set, and the
    store's records stay as they are. *)
Lemma onReplace_removes_layer rd n key old s :
  map s = true ->
  findByLayer (getOlLayer old) s = None ->
  exists s',
    onReplace (dispatch rd (S n)) key old s = Ret s' /\
    layers s' = remove1 (getOlLayer old) (layers s) /\
    trace s' = trace s ++ [ARemoveLayer (getOlLayer old)] /\
    propertychange s' = propertychange s /\
    data s' = data s /\
    _adding s' = _adding s /\ _removing s' = _removing s.
Proof.
  intros Hm Hf. unfold onReplace, removeMapLayer, getLayers. rewrite Hm.
  unfold coll_remove. cbn [layers call].
  destruct (indexOf (getOlLayer old) (layers s)) eqn:Hi.
  - rewrite dispatch_S. cbn [handle layers_on set_layers call].
    destruct (layers_on s).
    + unfold onRemoveLayer, getByLayer. cbn [_removing set_layers call].
      destruct (negb (_removing s)).
      * unfold findByLayer in Hf |- *. cbn [data set_layers call].
        rewrite Hf. eexists. split; [reflexivity|]. repeat split.
      * eexists. split; [reflexivity|]. repeat split.
    + eexists. split; [reflexivity|]. repeat split.
  - eexists. split; [reflexivity|]. cbn [layers call].
    rewrite remove1_absent by exact Hi. repeat split.
Qed.

(** C7 on the code: [onReplace] does not treat the old record's layer as
    [onRemove] does.  After a replacement [onReplace] removes the layer from
    the collection but leaves [onChangeLayer] registered on it, where
    [onRemove] on the same state calls [layer.un] first.  And the removal is
    not made under the [removing] guard: if a record of the store is still
    bound to the layer, the [remove] listener of the layer collection runs
    and removes that record from the store. *)
Theorem onReplace_keeps_listener :
  (exists s1 s2,
     onReplace (dispatch layer_reader 3) 0 (mkRec 101 1 "one" None)
       replaced_store = Ret s1 /\
     onRemove (dispatch layer_reader 3) (mkRec 101 1 "one" None)
       replaced_store = Ret s2 /\
     layers s1 = [2] /\ layers s2 = [2] /\
     propertychange s1 = [2; 1] /\ trace s1 = [ARemoveLayer 1] /\
     propertychange s2 = [2] /\ trace s2 = [AUn 1; ARemoveLayer 1]) /\
  (exists s1,
     onReplace (dispatch layer_reader 3) 0 (mkRec 101 1 "one" None)
       bound_store = Ret s1 /\
     trace s1 = [ARemoveLayer 1; AUn 1; ARemove (mkRec 101 1 "one" None)] /\
     data s1 = [mkRec 102 2 "two" None]).
Proof.
  split.
  - do 2 eexists. split; [vm_compute; reflexivity|].
    split; [vm_compute; reflexivity|]. repeat split.
  - eexists. split; [vm_compute; reflexivity|]. repeat split.
Qed.

(** ** The handlers that propagate one change *)

Lemma store_insert_at_guarded rd n i rs s :
  _adding s = true ->
  store_insert_at (dispatch rd (S n)) i rs s = Ret (inserted i rs s).
Proof.
  intros Ha. unfold store_insert_at, inserted.
  destruct i as [k|]; unfold store_insert; destruct rs as [|r rs];
    try reflexivity; now rewrite dispatch_add_guarded.
Qed.

Lemma store_remove_guarded rd n r s :
  _removing s = true ->
  store_remove (dispatch rd (S n)) r s = Ret (removed r s).
Proof.
  intros Hr. unfold store_remove, removed. cbv zeta.
  destruct (existsb _ _); [|reflexivity].
  now rewrite dispatch_remove_guarded.
Qed.

Lemma coll_remove_guarded rd n l s :
  _removing s = true ->
  coll_remove (dispatch rd (S n)) l s = Ret (layer_removed l s).
Proof.
  intros Hr. unfold coll_remove, layer_removed. cbv zeta.
  destruct (indexOf _ _); [|reflexivity].
  now rewrite dispatch_layers_remove_guarded.
Qed.

Lemma onAddLayer_unguarded rd n l s res :
  map s = true -> _adding s = false -> rd l = Some res ->
  onAddLayer rd (dispatch rd (S n)) l s =
  Ret (set_adding false
         (inserted (indexOf l (layers s)) (records res)
            (set_adding true (layer_on l s)))).
Proof.
  intros Hm Ha Hrd. unfold onAddLayer, getLayers. rewrite Hm. cbv zeta.
  cbn [_adding layer_on set_propertychange call]. rewrite Ha, Hrd. cbn [negb].
  now rewrite store_insert_at_guarded.
Qed.

Lemma onRemoveLayer_unguarded rd n l s rec :
  _removing s = false -> findByLayer l s = Some rec ->
  onRemoveLayer (dispatch rd (S n)) l s =
  Ret (set_removing false (removed rec (layer_un l (set_removing true s)))).
Proof.
  intros Hr Hf. unfold onRemoveLayer, getByLayer. rewrite Hr, Hf. cbn [negb].
  cbv zeta. now rewrite store_remove_guarded.
Qed.

Lemma onRemove_unguarded rd n r s :
  map s = true -> _removing s = false ->
  onRemove (dispatch rd (S n)) r s =
  Ret (let s1 := layer_un (getOlLayer r) s in
       if existsb (Nat.eqb (getOlLayer r)) (layers s1)
       then set_removing false
              (layer_removed (getOlLayer r) (set_removing true s1))
       else s1).
Proof.
  intros Hm Hr. unfold onRemove, getLayers. rewrite Hr. cbn [negb]. cbv zeta.
  cbn [map layer_un set_propertychange call]. rewrite Hm.
  destruct (existsb (Nat.eqb (getOlLayer r))
              (layers (layer_un (getOlLayer r) s))); [|reflexivity].
  unfold removeMapLayer, getLayers.
  cbn [map set_removing layer_un set_propertychange call]. rewrite Hm.
  now rewrite coll_remove_guarded.
Qed.

Lemma onClear_cleared rd n s :
  map s = true ->
  onClear (dispatch rd (S n)) s =
  Ret (set_removing false (cleared (set_removing true s))).
Proof.
  intros Hm. unfold onClear. now rewrite unlisten_and_clear_guarded.
Qed.

(** ** The guard flags *)

Lemma inserted_flags i rs s :
  _adding (inserted i rs s) = _adding s /\
  _removing (inserted i rs s) = _removing s.
Proof. unfold inserted. destruct rs; cbn; tauto. Qed.

Lemma removed_flags r s :
  _adding (removed r s) = _adding s /\ _removing (removed r s) = _removing s.
Proof. unfold removed. cbv zeta. destruct (existsb _ _); cbn; tauto. Qed.

Lemma layer_removed_flags l s :
  _adding (layer_removed l s) = _adding s /\
  _removing (layer_removed l s) = _removing s.
Proof. unfold layer_removed. cbv zeta. destruct (indexOf _ _); cbn; tauto. Qed.

(** C2, as the code has it: a handler that sets a guard flag clears it
    again before it returns.  Entered with both flags clear, a map bound and
    a reader that does not throw, every such handler returns, and both flags
    are clear when it does. *)
Theorem guards_cleared_on_return rd n e s :
  guard_setting e = true ->
  (forall l, rd l <> None) ->
  map s = true -> _adding s = false -> _removing s = false ->
  exists s',
    dispatch rd (S (S n)) e s = Ret s' /\
    _adding s' = false /\ _removing s' = false.
Proof.
  intros He Hrd Hm Ha Hr. rewrite dispatch_S.
  destruct e as [l|l|l key|rs ok| |rs i|r|r op|k old];
    try discriminate He; cbn [handle].
  - (* onAddLayer *)
    destruct (layers_on s); [|now exists s].
    destruct (rd l) as [res|] eqn:E; [|now destruct (Hrd l)].
    rewrite (onAddLayer_unguarded rd n l s res Hm Ha E).
    eexists. split; [reflexivity|]. cbn [_adding _removing set_adding].
    split; [reflexivity|].
    now destruct (inserted_flags (indexOf l (layers s)) (records res)
                    (set_adding true (layer_on l s))) as (_ & ->).
  - (* onRemoveLayer *)
    destruct (layers_on s); [|now exists s].
    destruct (findByLayer l s) as [rec|] eqn:E.
    + rewrite (onRemoveLayer_unguarded rd n l s rec Hr E).
      eexists. split; [reflexivity|]. cbn [_adding _removing set_removing].
      split; [|reflexivity].
      now destruct (removed_flags rec (layer_un l (set_removing true s)))
        as (-> & _).
    + unfold onRemoveLayer, getByLayer. rewrite Hr, E. now exists s.
  - (* onLoad *)
    destruct (store_on s); [|now exists s].
    destruct ok.
    + rewrite (onLoad_loaded rd n rs s Hm). eexists. split; [reflexivity|].
      destruct (loaded_frame rs s) as (_ & _ & _ & -> & ->).
      destruct rs, (_addRecords s); auto.
    + eexists. split; [reflexivity|]. auto.
  - (* onClear *)
    destruct (store_on s); [|now exists s].
    rewrite (onClear_cleared rd n s Hm). eexists. split; [reflexivity|].
    cbn [_adding _removing set_removing]. split; [|reflexivity].
    now destruct (cleared_frame (set_removing true s)) as (_ & _ & -> & _).
  - (* onAdd *)
    destruct (store_on s); [|now exists s].
    destruct (onAdd_layers rd n rs i s Hm Ha) as (s' & -> & Ha' & Hr' & _).
    exists s'. split; [reflexivity|]. split; congruence.
  - (* onRemove *)
    destruct (store_on s); [|now exists s].
    rewrite (onRemove_unguarded rd n r s Hm Hr). cbv zeta.
    eexists. split; [reflexivity|].
    destruct (existsb _ _); cbn [_adding _removing set_removing layer_un
                                 set_propertychange call]; [|auto].
    split; [|reflexivity].
    now destruct (layer_removed_flags (getOlLayer r)
                    (set_removing true (layer_un (getOlLayer r) s)))
      as (-> & _).
Qed.

Lemma guards_cleared_on_return_witness :
  exists s',
    dispatch layer_reader 2 (EvLayersAdd 2) bound_store = Ret s' /\
    _adding s' = false /\ _removing s' = false.
Proof.
  refine (guards_cleared_on_return layer_reader 0 (EvLayersAdd 2) bound_store
            eq_refl _ eq_refl eq_refl eq_refl).
  intros l. unfold layer_reader. discriminate.
Defined.

(** C2 as stated fails on an exit by a thrown error: when the reader throws
    in [onAddLayer], [_adding] stays set, and from then on [onAdd] does
    nothing for records added to the store. *)
Lemma guard_left_set_counterexample :
  exists s',
    dispatch throwing_reader 2 (EvLayersAdd 2) bound_store = Throw s' /\
    _adding s' = true /\
    forall rs i, onAdd (dispatch throwing_reader 2) rs i s' = Ret s'.
Proof.
  eexists. split; [vm_compute; reflexivity|]. split; reflexivity.
Qed.

(** ** One external change, one propagated change *)

Lemma indexOf_In l : forall xs, In l xs -> exists k, indexOf l xs = Some k.
Proof.
  induction xs as [|x xs IH]; intros H; [destruct H|]. cbn.
  destruct (Nat.eqb x l) eqn:E; [eauto|].
  destruct H as [H|H]; [subst; now rewrite Nat.eqb_refl in E|].
  destruct (IH H) as (k & ->). eauto.
Qed.

(** The [add] event of the layer collection for a layer that is in it. *)
Lemma layers_add_once rd n l s res :
  bound s -> rd l = Some res -> In l (layers s) ->
  exists s',
    dispatch rd (S (S n)) (EvLayersAdd l) s = Ret s' /\
    layers s' = layers s /\
    exists k,
      indexOf l (layers s) = Some k /\
      trace s' = trace s ++ [AOn l; AInsert k (records res)].
Proof.
  intros (Hm & Hlo & Hso & Ha & Hr) Hrd Hin.
  rewrite dispatch_S. cbn [handle]. rewrite Hlo.
  rewrite (onAddLayer_unguarded rd n l _ res) by assumption.
  eexists. split; [reflexivity|].
  unfold inserted. cbv zeta.
  destruct (indexOf_In l (layers s) Hin) as (k & Hk). rewrite Hk.
  split.
  - destruct (records res); reflexivity.
  - exists k. split; [reflexivity|]. unfold trace.
    destruct (records res); cbn; rewrite <- !app_assoc; reflexivity.
Qed.

(** A layer is pushed onto the layer collection. *)
Lemma layer_added_once rd n l s res :
  bound s -> rd l = Some res ->
  exists s',
    coll_push (dispatch rd (S (S n))) l s = Ret s' /\
    layers s' = layers s ++ [l] /\
    exists k,
      indexOf l (layers s ++ [l]) = Some k /\
      trace s' = trace s ++ [APush l; AOn l; AInsert k (records res)].
Proof.
  intros Hb Hrd. unfold coll_push, coll_push_raw.
  destruct (layers_add_once rd n l
              (set_layers (layers s ++ [l]) (call (APush l) s)) res)
    as (s' & E & Hl & k & Hk & Ht).
  - exact Hb.
  - exact Hrd.
  - cbn. apply in_or_app. right. now left.
  - exists s'. split; [exact E|]. split; [exact Hl|].
    exists k. split; [exact Hk|]. rewrite Ht. unfold trace. cbn.
    now rewrite <- app_assoc.
Qed.

(** A layer is inserted into the layer collection. *)
Lemma layer_inserted_once rd n i l s res :
  bound s -> rd l = Some res ->
  exists s',
    coll_insertAt (dispatch rd (S (S n))) i l s = Ret s' /\
    layers s' = splice1 i l (layers s) /\
    exists k,
      indexOf l (splice1 i l (layers s)) = Some k /\
      trace s' = trace s ++ [AInsertAt i l; AOn l; AInsert k (records res)].
Proof.
  intros Hb Hrd. unfold coll_insertAt.
  destruct (layers_add_once rd n l
              (set_layers (splice1 i l (layers s)) (call (AInsertAt i l) s)) res)
    as (s' & E & Hl & k & Hk & Ht).
  - exact Hb.
  - exact Hrd.
  - cbn. unfold splice1. apply in_or_app. right. now left.
  - exists s'. split; [exact E|]. split; [exact Hl|].
    exists k. split; [exact Hk|]. rewrite Ht. unfold trace. cbn.
    now rewrite <- app_assoc.
Qed.

(** A layer is removed from the layer collection. *)
Lemma layer_removed_once rd n l s rec k :
  bound s -> indexOf l (layers s) = Some k -> findByLayer l s = Some rec ->
  exists s',
    coll_remove (dispatch rd (S (S n))) l s = Ret s' /\
    layers s' = remove1 l (layers s) /\
    trace s' = trace s ++ [ARemoveLayer l; AUn l; ARemove rec].
Proof.
  intros (Hm & Hlo & Hso & Ha & Hr) Hi Hf.
  unfold coll_remove. cbv zeta. cbn [layers call]. rewrite Hi.
  rewrite dispatch_S. cbn [handle layers_on set_layers call]. rewrite Hlo.
  rewrite (onRemoveLayer_unguarded rd n l _ rec) by assumption.
  eexists. split; [reflexivity|].
  unfold removed. cbv zeta.
  destruct (existsb _ _); split; try reflexivity;
    unfold trace; cbn; rewrite <- !app_assoc; reflexivity.
Qed.

(** A record is inserted into the store. *)
Lemma record_added_once rd n r i s :
  bound s ->
  exists s',
    store_insert (dispatch rd (S (S n))) i [r] s = Ret s' /\
    data s' = splice i [r] (data s) /\
    trace s' =
      trace s ++ [AInsert i [r]; AOn (getOlLayer r);
                  if Nat.eqb i 0 then APush (getOlLayer r)
                  else AInsertAt i (getOlLayer r);
                  AOn (getOlLayer r)].
Proof.
  intros (Hm & Hlo & Hso & Ha & Hr).
  unfold store_insert. cbv zeta. rewrite dispatch_S.
  cbn [handle store_on set_data call]. rewrite Hso.
  destruct (onAdd_layers rd n [r] i
              (set_data (splice i [r] (data (call (AInsert i [r]) s)))
                 (call (AInsert i [r]) s)) Hm Ha)
    as (s' & E & _ & _ & Hd & _ & Hs).
  rewrite E. exists s'. split; [reflexivity|].
  split; [exact Hd|]. rewrite Hs.
  change (trace (set_adding false ?x)) with (trace x).
  rewrite add_all_trace. unfold trace.
  cbn [calls set_adding set_data call layers_on flat_map add_calls rev].
  rewrite Hlo. cbn. rewrite <- !app_assoc. reflexivity.
Qed.

(** A record is removed from the store. *)
Lemma record_removed_once rd n r s :
  bound s ->
  existsb (fun x => Nat.eqb (rid x) (rid r)) (data s) = true ->
  existsb (Nat.eqb (getOlLayer r)) (layers s) = true ->
  exists s',
    store_remove (dispatch rd (S (S n))) r s = Ret s' /\
    layers s' = remove1 (getOlLayer r) (layers s) /\
    trace s' =
      trace s ++ [ARemove r; AUn (getOlLayer r); ARemoveLayer (getOlLayer r)].
Proof.
  intros (Hm & Hlo & Hso & Ha & Hr) Hin Hl.
  unfold store_remove. cbv zeta. cbn [data call]. rewrite Hin.
  rewrite dispatch_S. cbn [handle store_on set_data call]. rewrite Hso.
  rewrite onRemove_unguarded by assumption. cbv zeta.
  cbn [layers layer_un set_propertychange set_data call]. rewrite Hl.
  eexists. split; [reflexivity|].
  unfold layer_removed. cbv zeta.
  cbn [layers layer_un set_removing set_propertychange set_data call].
  destruct (indexOf (getOlLayer r) (layers s)) eqn:Hi.
  - split; [reflexivity|]. unfold trace. cbn. rewrite <- !app_assoc.
    reflexivity.
  - split; [now rewrite remove1_absent|]. unfold trace. cbn.
    rewrite <- !app_assoc. reflexivity.
Qed.

Lemma retitled_rids k t d : List.map rid (retitled k t d) = List.map rid d.
Proof.
  unfold retitled. rewrite map_map. apply map_ext.
  intros y. now destruct (Nat.eqb (rid y) k).
Qed.

Lemma retitled_find_layer k t l r : forall d,
  find (fun x => Nat.eqb (getOlLayer x) l) d = Some r ->
  rid r = k ->
  find (fun x => Nat.eqb (getOlLayer x) l) (retitled k t d)
  = Some (edit_title t r).
Proof.
  induction d as [|x d IH]; intros Hf Hk; [discriminate|].
  cbn in Hf |- *.
  assert (E : getOlLayer (if Nat.eqb (rid x) k then edit_title t x else x)
              = getOlLayer x) by now destruct (Nat.eqb (rid x) k).
  rewrite E. destruct (Nat.eqb (getOlLayer x) l).
  - injection Hf as ->. now rewrite Hk, Nat.eqb_refl.
  - now apply IH.
Qed.

Lemma forEach_once {A} (h : Store -> Outcome) (xs : list A) s s' :
  List.length xs = 1 -> h s = Ret s' ->
  forEach (fun _ => h) xs s = Ret s'.
Proof.
  destruct xs as [|x [|y xs]]; try discriminate. intros _ H. cbn.
  now rewrite H.
Qed.

(** The title of a layer is set. *)
Lemma layer_title_once rd n l t r s :
  NoDup (List.map rid (data s)) ->
  findByLayer l s = Some r ->
  count l (propertychange s) = 1 ->
  exists s',
    layer_set_title (dispatch rd (S (S n))) l t s = Ret s' /\
    trace s' = trace s ++ [ALayerSetTitle l t; ARecordSetTitle (rid r) t] /\
    layers s' = layers s /\
    data s' = (if String.eqb (rtitle r) t then data s
               else retitled (rid r) t (data s)).
Proof.
  intros Hnd Hf Hc. unfold layer_set_title. rewrite dispatch_S.
  cbn [handle propertychange set_titles call].
  set (s1 := set_titles ((l, t) :: titles s) (call (ALayerSetTitle l t) s)).
  assert (Ht : layer_get_title l s1 = t).
  { unfold layer_get_title. cbn. now rewrite Nat.eqb_refl. }
  pose proof (onChangeLayer_title rd n l r s1 Hnd Hf) as E.
  cbv zeta in E. rewrite Ht in E.
  eexists. split; [exact (forEach_once _ _ _ _ Hc E)|].
  destruct (String.eqb (rtitle r) t); repeat split;
    unfold trace; cbn; rewrite <- app_assoc; reflexivity.
Qed.

(** The title of a record is set. *)
Lemma record_title_once rd n r t s :
  bound s ->
  NoDup (List.map rid (data s)) ->
  findByLayer (getOlLayer r) s = Some r ->
  String.eqb (rtitle r) t = false ->
  truthy (modified_title (edit_title t r)) = true ->
  String.eqb t (layer_get_title (getOlLayer r) s) = false ->
  exists s',
    record_set_title (dispatch rd (S (S (S n)))) (rid r) t s = Ret s' /\
    trace s' =
      trace s ++ [ARecordSetTitle (rid r) t; ALayerSetTitle (getOlLayer r) t]
      ++ repeat (ARecordSetTitle (rid r) t)
           (count (getOlLayer r) (propertychange s)) /\
    layers s' = layers s /\
    layer_get_title (getOlLayer r) s' = t /\
    data s' = retitled (rid r) t (data s).
Proof.
  intros (Hm & Hlo & Hso & Ha & Hr) Hnd Hf Hne Hmod Hlt.
  destruct (find_by_rid _ r (data s) Hnd Hf) as (Hrid & _).
  unfold record_set_title. cbv zeta. cbn [data call]. rewrite Hrid, Hne.
  rewrite dispatch_S. cbn [handle store_on set_data call]. rewrite Hso.
  unfold onStoreUpdate. cbn [Operation_eqb]. rewrite Hmod.
  change (getOlLayer (edit_title t r)) with (getOlLayer r).
  change (rtitle (edit_title t r)) with t.
  change (layer_get_title (getOlLayer r)
            (set_data (retitled (rid r) t (data s))
               (call (ARecordSetTitle (rid r) t) s)))
    with (layer_get_title (getOlLayer r) s).
  rewrite Hlt. cbn [negb].
  unfold layer_set_title. rewrite dispatch_S.
  cbn [handle propertychange set_titles set_data call].
  rewrite (title_listeners_in_sync _ (getOlLayer r) (edit_title t r)); cycle 1.
  - cbn [data set_titles set_data call]. now rewrite retitled_rids.
  - unfold findByLayer. cbn [data set_titles set_data call].
    now apply retitled_find_layer.
  - unfold layer_get_title. cbn. now rewrite Nat.eqb_refl.
  - eexists. split; [reflexivity|].
    match goal with |- context [set_calls ?a ?b ?c ?d] =>
      destruct (set_calls_frame a b c d) as (Hd & Hl & Ht & _ & _ & _ & Hc) end.
    unfold trace, layer_get_title. rewrite Hc, Hl, Ht, Hd.
    cbn [calls layers titles data set_titles set_data call rid edit_title
         rtitle assoc].
    rewrite Nat.eqb_refl. repeat split.
    rewrite rev_app_distr, rev_repeat. cbn [rev].
    unfold count. rewrite <- !app_assoc. reflexivity.
Qed.

Lemma propagated_app kind s s' new :
  trace s' = trace s ++ new ->
  propagated kind s s' = List.length (filter kind new).
Proof.
  intros H. unfold propagated. rewrite H, skipn_app, skipn_all, Nat.sub_diag.
  reflexivity.
Qed.

(** C5 on the code: the title of a record whose title was empty is set to
    a new value, in a bound store where the layer has the empty title too.
    [onStoreUpdate] tests [record.modified.title] for truthiness; the value
    kept there is the original, empty title, so the handler takes the record
    for unmodified: no call is made on the layer and the layer keeps its
    title.  The second part is the handler alone on the [update] event of
    that edit.  The third part is the same edit on a record whose title was
    not empty: there the layer gets the new title, by one call. *)
Theorem record_title_edit_lost :
  (exists s',
     record_set_title (dispatch layer_reader 4) 101 "roads" untitled_store
       = Ret s' /\
     data s' = [mkRec 101 1 "roads" (Some "")] /\
     propagated on_target untitled_store s' = 0 /\
     layer_get_title 1 s' = "") /\
  onStoreUpdate (dispatch layer_reader 4) (mkRec 101 1 "roads" (Some "")) EDIT
    untitled_store = Ret untitled_store /\
  (exists s',
     record_set_title (dispatch layer_reader 4) 101 "roads" bound_store
       = Ret s' /\
     propagated on_target bound_store s' = 1 /\
     layer_get_title 1 s' = "roads").
Proof.
  split; [|split; [reflexivity|]].
  - eexists. split; [vm_compute; reflexivity|]. repeat split.
  - eexists. split; [vm_compute; reflexivity|]. repeat split.
Qed.

(** ** Unbinding and destruction *)

(** [unbindMap] returns, also a second time and on a store never bound; it
    leaves the registrations of [onChangeLayer] on the layers as they are. *)
Lemma unbindMap_twice s :
  exists s',
    unbindMap s = Ret s' /\ unbindMap s' = Ret s' /\
    map s' = false /\ store_on s' = false /\
    propertychange s' = propertychange s.
Proof.
  unfold unbindMap. destruct (map s); eexists; repeat split.
Qed.

Example unbindMap_never_bound : unbindMap fresh_store = Ret fresh_store.
Proof. reflexivity. Qed.

Lemma unbindMap_bound s :
  map s = true ->
  exists s',
    unbindMap s = Ret s' /\ layers_on s' = false /\ store_on s' = false.
Proof. intros H. unfold unbindMap. rewrite H. eexists. repeat split. Qed.

(** C8 on the code: after [unbindMap] (even twice) the layers that were in
    the map at [bindMap] still carry [onChangeLayer]; setting the title of
    such a layer changes the title of its record in the store. *)
Theorem unbindMap_keeps_change_listeners :
  exists s1 s2,
    unbindMap bound_store = Ret s1 /\ unbindMap s1 = Ret s1 /\
    propertychange s1 = [2; 1] /\
    layer_set_title (dispatch layer_reader 3) 1 "roads" s1 = Ret s2 /\
    trace s2 = [ALayerSetTitle 1 "roads"; ARecordSetTitle 101 "roads"] /\
    data s1 = [mkRec 101 1 "one" None; mkRec 102 2 "two" None] /\
    data s2 = [mkRec 101 1 "roads" (Some "one"); mkRec 102 2 "two" None].
Proof.
  do 2 eexists. split; [vm_compute; reflexivity|].
  split; [reflexivity|]. split; [reflexivity|].
  split; [vm_compute; reflexivity|]. repeat split.
Qed.

(** C4 on the code: [destroy] calls [this.unbind()], which the class does
    not define; when no parent class provides it the call throws before
    anything is detached.  Were it resolved to [unbindMap], the layers would
    still keep their registrations of [onChangeLayer]. *)
Theorem destroy_leaves_listeners :
  destroy None bound_store = Throw bound_store /\
  layers_on bound_store = true /\ store_on bound_store = true /\
  exists s',
    destroy (Some unbindMap) bound_store = Ret s' /\
    propertychange s' = [2; 1].
Proof.
  repeat split. eexists. split; reflexivity.
Qed.

(** * Further properties of the class *)

(** ** Binding a map *)

Lemma on_all_propertychange ls : forall s,
  propertychange (on_all ls s) =
    fold_left (fun p l => register l p) ls (propertychange s) /\
  titles (on_all ls s) = titles s /\
  totalCount (on_all ls s) = totalCount s.
Proof.
  induction ls as [|l ls IH]; intros s; [cbn; tauto|].
  cbn [on_all fold_left rev]. fold (on_all ls (layer_on l s)).
  destruct (IH (layer_on l s)) as (-> & -> & ->). cbn. tauto.
Qed.

(** Registering layers that are distinct and not registered yet puts them
    in front of the registry, last one first. *)
Lemma register_fresh ls : forall p,
  NoDup ls -> (forall l, In l ls -> ~ In l p) ->
  fold_left (fun p l => register l p) ls p = rev ls ++ p.
Proof.
  induction ls as [|x ls IH]; intros p Hnd Hfr; [reflexivity|].
  inversion Hnd as [|? ? Hx Hls]; subst. cbn [fold_left rev].
  assert (E : register x p = x :: p).
  { unfold register. destruct (existsb (Nat.eqb x) p) eqn:E; [|reflexivity].
    apply existsb_exists in E. destruct E as (y & Hy & E).
    apply Nat.eqb_eq in E. subst y. destruct (Hfr x (or_introl eq_refl) Hy). }
  rewrite E, IH, <- app_assoc; [reflexivity|exact Hls|].
  intros l Hl [<-|Hin]; [contradiction|].
  exact (Hfr l (or_intror Hl) Hin).
Qed.

(** [loadRawData(layer, true)] while [onLoad] is not registered: the
    records of a successful read are appended and [_addRecords] is left
    set. *)
Lemma loadRawData_unlistened rd n l s res :
  rd l = Some res -> store_on s = false ->
  loadRawData rd (dispatch rd (S n)) l true s =
  Ret (if success res
       then set_data (data s ++ records res)
              (set_addRecords true (set_totalCount (total res) s))
       else s).
Proof.
  intros Hrd Hso. unfold loadRawData. rewrite Hrd.
  destruct (success res); [|reflexivity].
  unfold loadRecords. cbn [bind]. rewrite dispatch_S. cbn [handle].
  unfold parent_loadRecords. cbn [store_on set_data set_addRecords set_totalCount].
  now rewrite Hso.
Qed.

Lemma import_loop rd n ls : forall s,
  store_on s = false ->
  (forall l, In l ls -> rd l <> None) ->
  exists s',
    forEach (fun l => loadRawData rd (dispatch rd (S n)) l true) ls s = Ret s' /\
    data s' = data s ++ imported rd ls /\
    map s' = map s /\ layers s' = layers s /\ titles s' = titles s /\
    propertychange s' = propertychange s /\ layers_on s' = layers_on s /\
    store_on s' = false /\ _adding s' = _adding s /\
    _removing s' = _removing s /\ calls s' = calls s.
Proof.
  induction ls as [|l ls IH]; intros s Hso Hrd.
  - exists s. cbn. rewrite app_nil_r. tauto.
  - cbn [forEach].
    destruct (rd l) as [res|] eqn:E; [|destruct (Hrd l (or_introl eq_refl) E)].
    rewrite (loadRawData_unlistened rd n l s res E Hso). cbn [bind].
    set (s1 := if success res
               then set_data (data s ++ records res)
                      (set_addRecords true (set_totalCount (total res) s))
               else s).
    assert (H1 : data s1 = data s ++ import_one rd l /\ map s1 = map s /\
                 layers s1 = layers s /\ titles s1 = titles s /\
                 propertychange s1 = propertychange s /\
                 layers_on s1 = layers_on s /\ store_on s1 = false /\
                 _adding s1 = _adding s /\ _removing s1 = _removing s /\
                 calls s1 = calls s).
    { subst s1. unfold import_one. rewrite E.
      destruct (success res); cbn; rewrite ?app_nil_r; tauto. }
    destruct H1 as (Hd & Hm & Hl & Ht & Hp & Hlo & Hso1 & Ha & Hr & Hc).
    destruct (IH s1 Hso1 (fun x Hx => Hrd x (or_intror Hx)))
      as (s' & -> & Hd' & Hm' & Hl' & Ht' & Hp' & Hlo' & Hso' & Ha' & Hr' & Hc').
    exists s'. split; [reflexivity|].
    rewrite Hd', Hd. cbn [imported flat_map]. rewrite <- app_assoc.
    repeat split; congruence.
Qed.

(** [bindMap] of an [ol.Map] while the store's listeners are not
    registered. *)
Lemma bindMap_unlistened rd n s :
  store_on s = false ->
  (forall l, In l (layers s) -> rd l <> None) ->
  exists s',
    bindMap rd (dispatch rd (S n)) true s = Ret s' /\
    map s' = true /\ layers s' = layers s /\
    data s' = data s ++ imported rd (layers s) /\
    propertychange s' =
      fold_left (fun p l => register l p) (layers s) (propertychange s) /\
    layers_on s' = true /\ store_on s' = true /\
    _adding s' = _adding s /\ _removing s' = _removing s /\
    calls s' = AFireBind :: rev (List.map AOn (layers s)) ++ calls s.
Proof.
  intros Hso Hrd. unfold bindMap.
  set (s0 := if negb (map s) then set_map true s else s).
  assert (H0 : map s0 = true /\ layers s0 = layers s /\ data s0 = data s /\
               propertychange s0 = propertychange s /\ store_on s0 = false /\
               _adding s0 = _adding s /\ _removing s0 = _removing s /\
               calls s0 = calls s).
  { subst s0. destruct (map s) eqn:E; cbn; tauto. }
  destruct H0 as (Hm0 & Hl0 & Hd0 & Hp0 & Hso0 & Ha0 & Hr0 & Hc0).
  destruct (import_loop rd n (layers s0) s0 Hso0) as
    (s1 & -> & Hd & Hm & Hl & Ht & Hp & Hlo & Hso1 & Ha & Hr & Hc).
  { rewrite Hl0. exact Hrd. }
  cbn [bind]. fold (on_all (layers s1) s1).
  eexists. split; [reflexivity|].
  cbn [map layers data propertychange layers_on store_on _adding _removing
       calls set_layers_on set_store_on call].
  destruct (on_all_frame (layers s1) s1) as (-> & -> & -> & -> & -> & _).
  destruct (on_all_propertychange (layers s1) s1) as (-> & _).
  rewrite on_all_calls.
  rewrite Hm, Hl, Hd, Hp, Ha, Hr, Hc, Hm0, Hl0, Hd0, Hp0, Ha0, Hr0, Hc0.
  repeat split.
Qed.

(** X1: [bindMap] of an [ol.Map] on a store whose listeners are not
    registered, with a reader that never throws: the records the reader makes
    for the layers are appended to the store in the order of the layers; the
    layers themselves are untouched; every layer gets [onChangeLayer]
    registered, in collection order; all listeners are registered and [bind]
    is fired last. *)
Theorem bindMap_imports_in_order rd n s :
  store_on s = false ->
  (forall l, In l (layers s) -> rd l <> None) ->
  exists s',
    bindMap rd (dispatch rd (S n)) true s = Ret s' /\
    map s' = true /\ layers s' = layers s /\
    data s' = data s ++ imported rd (layers s) /\
    propertychange s' =
      fold_left (fun p l => register l p) (layers s) (propertychange s) /\
    (NoDup (layers s) ->
     (forall l, In l (layers s) -> ~ In l (propertychange s)) ->
     propertychange s' = rev (layers s) ++ propertychange s) /\
    layers_on s' = true /\ store_on s' = true /\
    _adding s' = _adding s /\ _removing s' = _removing s /\
    trace s' = trace s ++ List.map AOn (layers s) ++ [AFireBind].
Proof.
  intros Hso Hrd.
  destruct (bindMap_unlistened rd n s Hso Hrd)
    as (s' & E & Hm & Hl & Hd & Hp & Hlo & Hso' & Ha & Hr & Hc).
  exists s'. repeat split; try assumption.
  - intros Hnd Hfr. rewrite Hp. now apply register_fresh.
  - unfold trace. rewrite Hc. cbn [rev].
    rewrite rev_app_distr, rev_involutive, <- app_assoc. reflexivity.
Qed.

Lemma bindMap_imports_in_order_witness :
  exists s',
    bindMap layer_reader (dispatch layer_reader 1) true unbound_store = Ret s' /\
    map s' = true /\ layers s' = [1; 2] /\
    data s' = [mkRec 101 1 "one" None; mkRec 102 2 "two" None] /\
    propertychange s' = [2; 1] /\
    (NoDup (layers unbound_store) ->
     (forall l, In l (layers unbound_store) ->
                ~ In l (propertychange unbound_store)) ->
     propertychange s' = [2; 1]) /\
    layers_on s' = true /\ store_on s' = true /\
    _adding s' = false /\ _removing s' = false /\
    trace s' = [AOn 1; AOn 2; AFireBind].
Proof.
  refine (bindMap_imports_in_order layer_reader 0 unbound_store eq_refl _).
  intros l _. unfold layer_reader. discriminate.
Defined.

Lemma import_loop_throws rd n ls : forall s,
  store_on s = false ->
  (exists l, In l ls /\ rd l = None) ->
  exists s' front l back,
    forEach (fun l => loadRawData rd (dispatch rd (S n)) l true) ls s
      = Throw s' /\
    ls = front ++ l :: back /\ rd l = None /\
    (forall x, In x front -> rd x <> None) /\
    data s' = data s ++ imported rd front /\
    map s' = map s /\ layers s' = layers s /\
    propertychange s' = propertychange s /\ layers_on s' = layers_on s /\
    store_on s' = false /\ calls s' = calls s.
Proof.
  induction ls as [|x ls IH]; intros s Hso (l & Hin & Hl); [destruct Hin|].
  cbn [forEach]. destruct (rd x) as [res|] eqn:E.
  - rewrite (loadRawData_unlistened rd n x s res E Hso). cbn [bind].
    set (s1 := if success res
               then set_data (data s ++ records res)
                      (set_addRecords true (set_totalCount (total res) s))
               else s).
    assert (H1 : data s1 = data s ++ import_one rd x /\ map s1 = map s /\
                 layers s1 = layers s /\
                 propertychange s1 = propertychange s /\
                 layers_on s1 = layers_on s /\ store_on s1 = false /\
                 calls s1 = calls s).
    { subst s1. unfold import_one. rewrite E.
      destruct (success res); cbn; rewrite ?app_nil_r; tauto. }
    destruct H1 as (Hd & Hm & Hls & Hp & Hlo & Hso1 & Hc).
    destruct (IH s1 Hso1) as
      (s' & front & l' & back & -> & -> & Hl' & Hfr & Hd' & Hm' & Hls' & Hp'
       & Hlo' & Hso' & Hc').
    { destruct Hin as [<-|Hin]; [congruence|eauto]. }
    exists s', (x :: front), l', back. split; [reflexivity|].
    split; [reflexivity|]. split; [exact Hl'|]. split.
    + intros y [<-|Hy]; [congruence|auto].
    + rewrite Hd', Hd. cbn [imported flat_map]. rewrite <- app_assoc.
      repeat split; congruence.
  - exists s, [], x, ls. unfold loadRawData. rewrite E. cbn.
    rewrite app_nil_r. repeat split; try assumption. intros y [].
Qed.

(** X2: [bindMap] of an [ol.Map] on a store whose own listeners are not
    registered, when the reader throws for a layer of the map: [bindMap]
    throws at the first such layer; the records of the layers before it stay
    imported and [me.map] stays set, but no listener of any kind has been
    registered and [bind] has not been fired. *)
Theorem bindMap_reader_throws rd n s :
  store_on s = false ->
  (exists l, In l (layers s) /\ rd l = None) ->
  exists s' front l back,
    bindMap rd (dispatch rd (S n)) true s = Throw s' /\
    layers s = front ++ l :: back /\ rd l = None /\
    (forall x, In x front -> rd x <> None) /\
    data s' = data s ++ imported rd front /\
    map s' = true /\
    propertychange s' = propertychange s /\ layers_on s' = layers_on s /\
    store_on s' = false /\ calls s' = calls s.
Proof.
  intros Hso Hex. unfold bindMap.
  set (s0 := if negb (map s) then set_map true s else s).
  assert (H0 : map s0 = true /\ layers s0 = layers s /\ data s0 = data s /\
               propertychange s0 = propertychange s /\ store_on s0 = false /\
               layers_on s0 = layers_on s /\ calls s0 = calls s).
  { subst s0. destruct (map s) eqn:E; cbn; tauto. }
  destruct H0 as (Hm0 & Hl0 & Hd0 & Hp0 & Hso0 & Hlo0 & Hc0).
  destruct (import_loop_throws rd n (layers s0) s0 Hso0) as
    (s' & front & l & back & -> & Hls & Hl & Hfr & Hd & Hm & _ & Hp & Hlo
     & Hso' & Hc).
  { rewrite Hl0. exact Hex. }
  exists s', front, l, back. cbn [bind]. split; [reflexivity|].
  rewrite <- Hl0. repeat split; try assumption; congruence.
Qed.

Lemma bindMap_reader_throws_witness :
  exists s',
    bindMap second_layer_throws (dispatch second_layer_throws 1) true
      unbound_store = Throw s' /\
    data s' = [mkRec 101 1 "one" None] /\
    map s' = true /\ propertychange s' = [] /\
    layers_on s' = false /\ store_on s' = false /\ calls s' = [].
Proof.
  destruct (bindMap_reader_throws second_layer_throws 0 unbound_store eq_refl)
    as (s' & front & l & back & E & Hls & Hl & Hfr & Hd & Hm & Hp & Hlo
        & Hso & Hc).
  { exists 2. split; [simpl; auto|reflexivity]. }
  exists s'. split; [exact E|]. split; [|tauto].
  rewrite Hd. cbn [data unbound_store app]. cbn [layers unbound_store] in Hls.
  destruct front as [|x [|y front]].
  - injection Hls as <- _. discriminate Hl.
  - injection Hls as <- _ _. reflexivity.
  - injection Hls as _ Hy _. destruct (Hfr y).
    + right. now left.
    + now rewrite <- Hy.
Defined.

(** ** Unbinding *)

(** X3: [unbindMap] on a store with a map returns, a second call changes
    nothing more, and afterwards no [add] or [remove] of the layer collection
    and no event of the store or its data reaches a handler: dispatching it
    leaves the state as it is.  (Events of the layers themselves are not
    covered: [onChangeLayer] stays registered.) *)
Theorem unbindMap_silences rd n e s :
  map s = true ->
  (forall l key, e <> EvPropertyChange l key) ->
  exists s',
    unbindMap s = Ret s' /\ unbindMap s' = Ret s' /\
    layers s' = layers s /\ data s' = data s /\
    dispatch rd (S n) e s' = Ret s'.
Proof.
  intros Hm He. unfold unbindMap. rewrite Hm.
  eexists. split; [reflexivity|]. cbn [map set_map].
  split; [reflexivity|]. split; [reflexivity|]. split; [reflexivity|].
  rewrite dispatch_S.
  destruct e as [l|l|l key|rs ok| |rs i|r|r op|k old]; try reflexivity.
  now destruct (He l key).
Qed.

Lemma unbindMap_silences_witness :
  exists s',
    unbindMap bound_store = Ret s' /\ unbindMap s' = Ret s' /\
    layers s' = layers bound_store /\ data s' = data bound_store /\
    dispatch layer_reader 1 (EvLayersAdd 9) s' = Ret s'.
Proof.
  refine (unbindMap_silences layer_reader 0 (EvLayersAdd 9) bound_store
            eq_refl _).
  intros l key. discriminate.
Defined.

(** X4: binding, unbinding and binding again imports the layers a second
    time: [bindMap] never empties the store, so the store ends with the
    records of the layers twice, the second copy after the first. *)
Theorem rebind_imports_again rd n s :
  store_on s = false ->
  (forall l, In l (layers s) -> rd l <> None) ->
  exists s1 s2 s3,
    bindMap rd (dispatch rd (S n)) true s = Ret s1 /\
    unbindMap s1 = Ret s2 /\
    bindMap rd (dispatch rd (S n)) true s2 = Ret s3 /\
    layers s3 = layers s /\
    data s3 = data s ++ imported rd (layers s) ++ imported rd (layers s) /\
    layers_on s3 = true /\ store_on s3 = true.
Proof.
  intros Hso Hrd.
  destruct (bindMap_unlistened rd n s Hso Hrd)
    as (s1 & E1 & Hm1 & Hl1 & Hd1 & _ & _ & _ & _ & _ & _).
  exists s1. unfold unbindMap at 1. rewrite Hm1.
  set (s2 := set_map false (set_store_on false (set_layers_on false s1))).
  destruct (bindMap_unlistened rd n s2 eq_refl)
    as (s3 & E3 & _ & Hl3 & Hd3 & _ & Hlo3 & Hso3 & _).
  { cbn. rewrite Hl1. exact Hrd. }
  exists s2, s3. repeat split; try assumption.
  - rewrite Hl3. cbn. exact Hl1.
  - rewrite Hd3. cbn [data layers s2 set_map set_store_on set_layers_on].
    rewrite Hd1, Hl1, <- app_assoc. reflexivity.
Qed.

Lemma rebind_imports_again_witness :
  exists s1 s2 s3,
    bindMap layer_reader (dispatch layer_reader 1) true unbound_store = Ret s1 /\
    unbindMap s1 = Ret s2 /\
    bindMap layer_reader (dispatch layer_reader 1) true s2 = Ret s3 /\
    layers s3 = [1; 2] /\
    data s3 = [mkRec 101 1 "one" None; mkRec 102 2 "two" None;
               mkRec 101 1 "one" None; mkRec 102 2 "two" None] /\
    layers_on s3 = true /\ store_on s3 = true.
Proof.
  refine (rebind_imports_again layer_reader 0 unbound_store eq_refl _).
  intros l _. unfold layer_reader. discriminate.
Defined.

(** ** The order of records and layers *)

Lemma map_splice {A B} (f : A -> B) i x d :
  List.map f (splice i [x] d) = splice1 i (f x) (List.map f d).
Proof.
  unfold splice, splice1. rewrite map_app, firstn_map. cbn.
  now rewrite skipn_map.
Qed.

Lemma indexOf_app_fresh l : forall front back,
  ~ In l front -> indexOf l (front ++ l :: back) = Some (List.length front).
Proof.
  induction front as [|x front IH]; intros back Hn; cbn.
  - now rewrite Nat.eqb_refl.
  - destruct (Nat.eqb x l) eqn:E.
    + apply Nat.eqb_eq in E. subst. destruct Hn. now left.
    + rewrite IH; [reflexivity|]. intros H. apply Hn. now right.
Qed.

Lemma indexOf_splice1 l i xs :
  ~ In l xs -> i <= List.length xs -> indexOf l (splice1 i l xs) = Some i.
Proof.
  intros Hn Hi. unfold splice1. rewrite indexOf_app_fresh.
  - now rewrite length_firstn, Nat.min_l.
  - intros H. apply Hn. rewrite <- (firstn_skipn i xs).
    apply in_or_app. now left.
Qed.

Lemma find_layer_none l : forall d,
  ~ In l (List.map getOlLayer d) ->
  find (fun x => Nat.eqb (getOlLayer x) l) d = None.
Proof.
  induction d as [|x d IH]; intros Hn; [reflexivity|]. cbn.
  destruct (Nat.eqb (getOlLayer x) l) eqn:E.
  - apply Nat.eqb_eq in E. destruct Hn. now left.
  - apply IH. intros H. apply Hn. now right.
Qed.

Lemma find_layer_some l : forall d,
  In l (List.map getOlLayer d) ->
  exists r, find (fun x => Nat.eqb (getOlLayer x) l) d = Some r.
Proof.
  induction d as [|x d IH]; intros Hin; [destruct Hin|]. cbn.
  destruct (Nat.eqb (getOlLayer x) l) eqn:E; [eauto|].
  destruct Hin as [H|H]; [|auto].
  cbn in H. rewrite H, Nat.eqb_refl in E. discriminate.
Qed.

Lemma find_layer_spliced l r i d :
  ~ In l (List.map getOlLayer d) -> getOlLayer r = l ->
  find (fun x => Nat.eqb (getOlLayer x) l) (splice i [r] d) = Some r.
Proof.
  intros Hn Hr. unfold splice.
  assert (H : forall front back,
             ~ In l (List.map getOlLayer front) ->
             find (fun x => Nat.eqb (getOlLayer x) l) (front ++ [r] ++ back)
             = Some r).
  { induction front as [|x front IH]; intros back Hf; cbn.
    - now rewrite Hr, Nat.eqb_refl.
    - destruct (Nat.eqb (getOlLayer x) l) eqn:E.
      + apply Nat.eqb_eq in E. destruct Hf. now left.
      + apply IH. intros H. apply Hf. now right. }
  apply H. intros Hin. apply Hn.
  rewrite <- (firstn_skipn i d), map_app. apply in_or_app. now left.
Qed.

(** Dropping the first record of a layer from distinct records drops the
    first occurrence of the layer from the list of their layers. *)
Lemma filter_rid_layers l rec : forall d,
  NoDup (List.map rid d) ->
  find (fun x => Nat.eqb (getOlLayer x) l) d = Some rec ->
  List.map getOlLayer
    (filter (fun x => negb (Nat.eqb (rid x) (rid rec))) d)
  = remove1 l (List.map getOlLayer d).
Proof.
  induction d as [|x d IH]; intros Hnd Hf; [discriminate|].
  inversion Hnd as [|? ? Hx Hd]; subst. cbn in Hf |- *.
  destruct (Nat.eqb (getOlLayer x) l) eqn:E.
  - injection Hf as ->. rewrite Nat.eqb_refl. cbn.
    f_equal. rewrite (proj2 (filter_ext_in_iff _ (fun _ => true) d)).
    + clear. induction d; cbn; congruence.
    + intros y Hy. destruct (Nat.eqb (rid y) (rid rec)) eqn:E2; [|reflexivity].
      apply Nat.eqb_eq in E2. destruct Hx. rewrite <- E2. now apply in_map.
  - assert (E2 : Nat.eqb (rid x) (rid rec) = false).
    { apply Nat.eqb_neq. intros H. apply Hx. rewrite H.
      apply in_map. apply find_some in Hf. tauto. }
    rewrite E2. cbn. f_equal. now apply IH.
Qed.

Lemma remove1_NoDup l : forall xs, NoDup xs -> ~ In l (remove1 l xs).
Proof.
  induction xs as [|x xs IH]; intros Hnd; [auto|].
  inversion Hnd as [|? ? Hx Hd]; subst. cbn.
  destruct (Nat.eqb x l) eqn:E.
  - apply Nat.eqb_eq in E. now subst.
  - intros [H|H]; [subst; now rewrite Nat.eqb_refl in E|now apply IH].
Qed.

Lemma find_layer_NoDup r : forall d,
  NoDup (List.map getOlLayer d) -> In r d ->
  find (fun x => Nat.eqb (getOlLayer x) (getOlLayer r)) d = Some r.
Proof.
  induction d as [|x d IH]; intros Hnd Hin; [destruct Hin|].
  inversion Hnd as [|? ? Hx Hd]; subst. cbn.
  destruct Hin as [->|Hin]; [now rewrite Nat.eqb_refl|].
  destruct (Nat.eqb (getOlLayer x) (getOlLayer r)) eqn:E; [|now apply IH].
  apply Nat.eqb_eq in E. destruct Hx. rewrite E. now apply in_map.
Qed.

(** The [add] event of the layer collection in a bound store, for a reader
    that makes one record. *)
Lemma layers_add_sync rd n l s res r k :
  bound s -> rd l = Some res -> records res = [r] ->
  indexOf l (layers s) = Some k ->
  exists s',
    dispatch rd (S (S n)) (EvLayersAdd l) s = Ret s' /\
    layers s' = layers s /\ data s' = splice k [r] (data s) /\
    propertychange s' = register l (propertychange s) /\
    titles s' = titles s /\
    bound s'.
Proof.
  intros (Hm & Hlo & Hso & Ha & Hr) Hrd Hrec Hk.
  rewrite dispatch_S. cbn [handle]. rewrite Hlo.
  rewrite (onAddLayer_unguarded rd n l _ res) by assumption.
  eexists. split; [reflexivity|].
  unfold inserted, bound. rewrite Hk, Hrec.
  cbn. repeat split; assumption.
Qed.

(** X5: a layer not yet in the map is inserted into (or pushed onto) the
    layer collection of a bound, in-sync store, and the reader makes one
    record for it: the record is inserted into the store at the position the
    layer has in the collection, so the order of the records is again the
    order of the layers; [getByLayer] then finds that record, and the layer
    is registered for [onChangeLayer]. *)
Theorem layer_insert_keeps_order rd n i l s res r :
  bound s -> in_sync s -> ~ In l (layers s) ->
  rd l = Some res -> records res = [r] -> getOlLayer r = l ->
  (i <= List.length (layers s) ->
   exists s',
     coll_insertAt (dispatch rd (S (S n))) i l s = Ret s' /\
     layers s' = splice1 i l (layers s) /\
     data s' = splice i [r] (data s) /\
     in_sync s' /\ getByLayer l s' = Some r /\
     propertychange s' = register l (propertychange s) /\
     (~ In l (propertychange s) ->
      propertychange s' = l :: propertychange s)) /\
  (exists s',
     coll_push (dispatch rd (S (S n))) l s = Ret s' /\
     layers s' = layers s ++ [l] /\
     data s' = data s ++ [r] /\
     in_sync s' /\ getByLayer l s' = Some r /\
     propertychange s' = register l (propertychange s) /\
     (~ In l (propertychange s) ->
      propertychange s' = l :: propertychange s)).
Proof.
  intros Hb Hs Hn Hrd Hrec Hr.
  assert (Hnd : ~ In l (List.map getOlLayer (data s))) by now rewrite Hs.
  split.
  - intros Hi. unfold coll_insertAt.
    destruct (layers_add_sync rd n l
                (set_layers (splice1 i l (layers s)) (call (AInsertAt i l) s))
                res r i Hb Hrd Hrec)
      as (s' & E & Hl & Hd & Hp & _ & _).
    { cbn. now apply indexOf_splice1. }
    exists s'. split; [exact E|]. split; [exact Hl|]. split; [exact Hd|].
    split; [|split; [|split; [exact Hp|]]]; [| |intros Hnp; rewrite Hp; now apply register_new].
    + unfold in_sync. rewrite Hd, Hl. cbn [data layers set_layers call].
      now rewrite map_splice, Hr, Hs.
    + unfold getByLayer, findByLayer. rewrite Hd.
      now apply find_layer_spliced.
  - unfold coll_push, coll_push_raw.
    destruct (layers_add_sync rd n l
                (set_layers (layers s ++ [l]) (call (APush l) s))
                res r (List.length (layers s)) Hb Hrd Hrec)
      as (s' & E & Hl & Hd & Hp & _ & _).
    { cbn. now apply indexOf_app_fresh. }
    cbn [data layers set_layers call] in Hd, Hl.
    assert (Hd' : data s' = data s ++ [r]).
    { rewrite Hd. unfold splice. rewrite <- Hs, length_map.
      now rewrite firstn_all, skipn_all, app_nil_r. }
    exists s'. split; [exact E|]. split; [exact Hl|]. split; [exact Hd'|].
    split; [|split; [|split; [exact Hp|]]]; [| |intros Hnp; rewrite Hp; now apply register_new].
    + unfold in_sync. rewrite Hd', Hl, map_app, Hs. cbn. now rewrite Hr.
    + unfold getByLayer, findByLayer. rewrite Hd.
      now apply find_layer_spliced.
Qed.

Lemma layer_insert_keeps_order_witness :
  (exists s',
     coll_insertAt (dispatch layer_reader 2) 0 9 bound_store = Ret s' /\
     layers s' = [9; 1; 2] /\
     data s' = [mkRec 109 9 "" None; mkRec 101 1 "one" None;
                mkRec 102 2 "two" None] /\
     in_sync s' /\ getByLayer 9 s' = Some (mkRec 109 9 "" None) /\
     propertychange s' = [9; 2; 1] /\
     (~ In 9 (propertychange bound_store) ->
      propertychange s' = [9; 2; 1])) /\
  (exists s',
     coll_push (dispatch layer_reader 2) 9 bound_store = Ret s' /\
     layers s' = [1; 2; 9] /\
     data s' = [mkRec 101 1 "one" None; mkRec 102 2 "two" None;
                mkRec 109 9 "" None] /\
     in_sync s' /\ getByLayer 9 s' = Some (mkRec 109 9 "" None) /\
     propertychange s' = [9; 2; 1] /\
     (~ In 9 (propertychange bound_store) ->
      propertychange s' = [9; 2; 1])).
Proof.
  assert (Hb : bound bound_store) by (repeat split; reflexivity).
  assert (Hn : ~ In 9 (layers bound_store)).
  { simpl. intuition discriminate. }
  destruct (layer_insert_keeps_order layer_reader 0 0 9 bound_store
              (mkResult true 1 [mkRec 109 9 "" None]) (mkRec 109 9 "" None)
              Hb eq_refl Hn eq_refl eq_refl eq_refl) as (H1 & H2).
  split; [apply H1; simpl; lia|exact H2].
Defined.

Lemma existsb_rid r d :
  In r d -> existsb (fun x => Nat.eqb (rid x) (rid r)) d = true.
Proof.
  intros H. apply existsb_exists. exists r. split; [exact H|].
  apply Nat.eqb_refl.
Qed.

Lemma existsb_layer l xs : In l xs -> existsb (Nat.eqb l) xs = true.
Proof.
  intros H. apply existsb_exists. exists l. split; [exact H|].
  apply Nat.eqb_refl.
Qed.

(** Removal of a layer of the map from the layer collection of a bound,
    in-sync store with distinct records. *)
Lemma layer_remove_sync rd n l s :
  bound s -> in_sync s -> NoDup (List.map rid (data s)) -> In l (layers s) ->
  exists s' rec,
    coll_remove (dispatch rd (S (S n))) l s = Ret s' /\
    findByLayer l s = Some rec /\
    layers s' = remove1 l (layers s) /\
    data s' = filter (fun x => negb (Nat.eqb (rid x) (rid rec))) (data s) /\
    in_sync s' /\
    propertychange s' = remove1 l (propertychange s) /\
    titles s' = titles s /\ bound s'.
Proof.
  intros (Hm & Hlo & Hso & Ha & Hr) Hs Hnd Hin.
  destruct (find_layer_some l (data s)) as (rec & Hf);
    [now rewrite Hs|].
  destruct (indexOf_In l (layers s) Hin) as (k & Hk).
  unfold coll_remove. cbv zeta. cbn [layers call]. rewrite Hk.
  rewrite dispatch_S. cbn [handle layers_on set_layers call]. rewrite Hlo.
  rewrite (onRemoveLayer_unguarded rd n l _ rec) by assumption.
  eexists. exists rec. split; [reflexivity|]. split; [exact Hf|].
  unfold removed, bound. cbv zeta.
  cbn [data layer_un set_removing set_propertychange set_layers call].
  rewrite (existsb_rid rec (data s)) by (apply find_some in Hf; tauto).
  cbn [map layers data propertychange titles layers_on store_on _adding
       _removing set_removing set_data layer_un set_propertychange
       set_layers call].
  repeat split; try assumption.
  unfold in_sync. cbn [layers data set_removing set_data layer_un
                       set_propertychange set_layers call].
  rewrite (filter_rid_layers l rec (data s) Hnd Hf). now rewrite Hs.
Qed.

(** X6: a layer of the map is removed from the layer collection of a
    bound, in-sync store whose records are distinct objects: the record bound
    to the layer is removed from the store, the other records keep their
    order, and the order of the records is again the order of the layers;
    one registration of [onChangeLayer] is taken off the layer, and when the
    layers of the map are distinct [getByLayer] no longer finds a record
    for it. *)
Theorem layer_remove_keeps_order rd n l s :
  bound s -> in_sync s -> NoDup (List.map rid (data s)) -> In l (layers s) ->
  exists s' rec,
    coll_remove (dispatch rd (S (S n))) l s = Ret s' /\
    findByLayer l s = Some rec /\
    layers s' = remove1 l (layers s) /\
    data s' = filter (fun x => negb (Nat.eqb (rid x) (rid rec))) (data s) /\
    in_sync s' /\
    propertychange s' = remove1 l (propertychange s) /\
    (NoDup (layers s) -> getByLayer l s' = None).
Proof.
  intros Hb Hs Hnd Hin.
  destruct (layer_remove_sync rd n l s Hb Hs Hnd Hin)
    as (s' & rec & E & Hf & Hl & Hd & Hs' & Hp & _ & _).
  exists s', rec. repeat split; try assumption.
  intros Hndl. unfold getByLayer, findByLayer. apply find_layer_none.
  rewrite Hs', Hl. now apply remove1_NoDup.
Qed.

Lemma layer_remove_keeps_order_witness :
  exists s' rec,
    coll_remove (dispatch layer_reader 2) 1 bound_store = Ret s' /\
    findByLayer 1 bound_store = Some rec /\
    layers s' = [2] /\
    data s' = filter (fun x => negb (Nat.eqb (rid x) (rid rec)))
                (data bound_store) /\
    in_sync s' /\
    propertychange s' = [2] /\
    (NoDup (layers bound_store) -> getByLayer 1 s' = None).
Proof.
  assert (Hb : bound bound_store) by (repeat split; reflexivity).
  assert (Hnd : NoDup (List.map rid (data bound_store))).
  { repeat constructor; simpl; intuition discriminate. }
  refine (layer_remove_keeps_order layer_reader 0 1 bound_store Hb eq_refl
            Hnd _).
  simpl. auto.
Defined.

(** Removal of a record from a bound, in-sync store with distinct records
    and distinct layers. *)
Lemma record_remove_sync rd n r s :
  bound s -> in_sync s -> NoDup (List.map rid (data s)) ->
  NoDup (layers s) -> In r (data s) ->
  exists s',
    store_remove (dispatch rd (S (S n))) r s = Ret s' /\
    data s' = filter (fun x => negb (Nat.eqb (rid x) (rid r))) (data s) /\
    layers s' = remove1 (getOlLayer r) (layers s) /\
    in_sync s' /\
    propertychange s' = remove1 (getOlLayer r) (propertychange s) /\
    titles s' = titles s /\ bound s'.
Proof.
  intros (Hm & Hlo & Hso & Ha & Hr) Hs Hnd Hndl Hin.
  assert (Hl : In (getOlLayer r) (layers s)).
  { rewrite <- Hs. now apply in_map. }
  destruct (indexOf_In _ _ Hl) as (k & Hk).
  unfold store_remove. cbv zeta. cbn [data call].
  rewrite (existsb_rid r (data s) Hin).
  rewrite dispatch_S. cbn [handle store_on set_data call]. rewrite Hso.
  rewrite onRemove_unguarded by assumption. cbv zeta.
  cbn [layers layer_un set_propertychange set_data call].
  rewrite (existsb_layer _ _ Hl).
  eexists. split; [reflexivity|].
  unfold layer_removed, bound. cbv zeta.
  cbn [layers layer_un set_removing set_propertychange set_data call].
  rewrite Hk.
  cbn [map layers data propertychange titles layers_on store_on _adding
       _removing set_removing set_layers set_data layer_un
       set_propertychange call].
  repeat split; try assumption.
  unfold in_sync. cbn [layers data set_removing set_layers set_data layer_un
                       set_propertychange call].
  rewrite (filter_rid_layers (getOlLayer r) r (data s) Hnd).
  - now rewrite Hs.
  - apply find_layer_NoDup; [now rewrite Hs|exact Hin].
Qed.

(** X7: a record that is in a bound, in-sync store with distinct records
    and distinct layers is removed from the store: its layer is removed from
    the layer collection, one registration of [onChangeLayer] is taken off
    it, the other layers keep their order, and the order of the records is
    again the order of the layers. *)
Theorem record_remove_keeps_order rd n r s :
  bound s -> in_sync s -> NoDup (List.map rid (data s)) ->
  NoDup (layers s) -> In r (data s) ->
  exists s',
    store_remove (dispatch rd (S (S n))) r s = Ret s' /\
    data s' = filter (fun x => negb (Nat.eqb (rid x) (rid r))) (data s) /\
    layers s' = remove1 (getOlLayer r) (layers s) /\
    ~ In (getOlLayer r) (layers s') /\
    in_sync s' /\
    propertychange s' = remove1 (getOlLayer r) (propertychange s).
Proof.
  intros Hb Hs Hnd Hndl Hin.
  destruct (record_remove_sync rd n r s Hb Hs Hnd Hndl Hin)
    as (s' & E & Hd & Hl & Hs' & Hp & _ & _).
  exists s'. repeat split; try assumption.
  rewrite Hl. now apply remove1_NoDup.
Qed.

Lemma record_remove_keeps_order_witness :
  exists s',
    store_remove (dispatch layer_reader 2) (mkRec 101 1 "one" None)
      bound_store = Ret s' /\
    data s' = [mkRec 102 2 "two" None] /\
    layers s' = [2] /\ ~ In 1 (layers s') /\ in_sync s' /\
    propertychange s' = [2].
Proof.
  assert (Hb : bound bound_store) by (repeat split; reflexivity).
  assert (Hnd : NoDup (List.map rid (data bound_store))).
  { repeat constructor; simpl; intuition discriminate. }
  assert (Hndl : NoDup (layers bound_store)).
  { repeat constructor; simpl; intuition discriminate. }
  refine (record_remove_keeps_order layer_reader 0 (mkRec 101 1 "one" None)
            bound_store Hb eq_refl Hnd Hndl _).
  simpl. auto.
Defined.

(** X8: a record is inserted at index [i] of a bound, in-sync store.  For
    [i] other than 0 its layer is inserted at index [i] of the layer
    collection and the order of the records is again the order of the
    layers.  For index 0 the record comes first in the store but its layer
    last in the collection: when the layer was not in the map, the two orders
    agree afterwards only if the map had no layers. *)
Theorem record_insert_order rd n r i s :
  bound s -> in_sync s ->
  exists s',
    store_insert (dispatch rd (S (S n))) i [r] s = Ret s' /\
    data s' = splice i [r] (data s) /\
    layers s' = (if Nat.eqb i 0 then layers s ++ [getOlLayer r]
                 else splice1 i (getOlLayer r) (layers s)) /\
    (i <> 0 -> in_sync s') /\
    (i = 0 -> ~ In (getOlLayer r) (layers s) ->
     (in_sync s' <-> layers s = [])).
Proof.
  intros (Hm & Hlo & Hso & Ha & Hr) Hs.
  unfold store_insert. cbv zeta. rewrite dispatch_S.
  cbn [handle store_on set_data call]. rewrite Hso.
  destruct (onAdd_layers rd n [r] i
              (set_data (splice i [r] (data (call (AInsert i [r]) s)))
                 (call (AInsert i [r]) s)) Hm Ha)
    as (s' & E & _ & _ & Hd & Hl & _).
  rewrite E. exists s'. split; [reflexivity|].
  cbn [data layers set_data call List.map fold_left] in Hd, Hl.
  split; [exact Hd|]. split; [exact Hl|]. split.
  - intros Hi. unfold in_sync. rewrite Hd, Hl, map_splice, Hs.
    destruct (Nat.eqb i 0) eqn:E0; [|reflexivity].
    apply Nat.eqb_eq in E0. contradiction.
  - intros -> Hn. unfold in_sync. rewrite Hd, Hl. cbn. rewrite Hs.
    split.
    + destruct (layers s) as [|x xs]; [reflexivity|].
      cbn. intros H. injection H as H _. destruct Hn. now left.
    + intros ->. reflexivity.
Qed.

Lemma record_insert_order_witness :
  exists s',
    store_insert (dispatch layer_reader 2) 1 [mkRec 50 9 "nine" None]
      bound_store = Ret s' /\
    data s' = [mkRec 101 1 "one" None; mkRec 50 9 "nine" None;
               mkRec 102 2 "two" None] /\
    layers s' = [1; 9; 2] /\
    (1 <> 0 -> in_sync s') /\
    (1 = 0 -> ~ In 9 (layers bound_store) ->
     (in_sync s' <-> layers bound_store = [])).
Proof.
  assert (Hb : bound bound_store) by (repeat split; reflexivity).
  exact (record_insert_order layer_reader 0 (mkRec 50 9 "nine" None) 1
           bound_store Hb eq_refl).
Defined.

(** The same at index 0 of the sample store: the orders differ. *)
Example record_insert_front_out_of_order :
  exists s',
    store_insert (dispatch layer_reader 2) 0 [mkRec 50 9 "nine" None]
      bound_store = Ret s' /\
    List.map getOlLayer (data s') = [9; 1; 2] /\ layers s' = [1; 2; 9].
Proof. eexists. split; [vm_compute; reflexivity|]. split; reflexivity. Qed.

(** ** Round trips *)

Lemma remove1_app_fresh l : forall xs,
  ~ In l xs -> remove1 l (xs ++ [l]) = xs.
Proof.
  induction xs as [|x xs IH]; intros Hn; cbn.
  - now rewrite Nat.eqb_refl.
  - destruct (Nat.eqb x l) eqn:E.
    + apply Nat.eqb_eq in E. destruct Hn. now left.
    + rewrite IH; [reflexivity|]. intros H. apply Hn. now right.
Qed.

Lemma filter_rid_fresh r : forall d,
  ~ In (rid r) (List.map rid d) ->
  filter (fun x => negb (Nat.eqb (rid x) (rid r))) (d ++ [r]) = d.
Proof.
  induction d as [|x d IH]; intros Hn; cbn.
  - now rewrite Nat.eqb_refl.
  - destruct (Nat.eqb (rid x) (rid r)) eqn:E.
    + apply Nat.eqb_eq in E. destruct Hn. now left.
    + cbn. rewrite IH; [reflexivity|]. intros H. apply Hn. now right.
Qed.

(** X9: a layer that is not in the map and carries no registration of
    [onChangeLayer] is pushed onto the layer collection of a bound, in-sync
    store with distinct records, the reader making exactly one record for
    it, bound to it and distinct from the records of the store; the layer is
    then removed again.  This gives back the layers, the records, the layer
    titles and the registrations of [onChangeLayer] as they were, with no
    guard set: the record the reader made is gone again and nothing else
    moved. *)
Theorem layer_push_remove_round_trip rd n l s res r :
  bound s -> in_sync s -> NoDup (List.map rid (data s)) ->
  ~ In l (layers s) ->
  rd l = Some res -> records res = [r] -> getOlLayer r = l ->
  ~ In (rid r) (List.map rid (data s)) ->
  ~ In l (propertychange s) ->
  exists s1 s2,
    coll_push (dispatch rd (S (S n))) l s = Ret s1 /\
    coll_remove (dispatch rd (S (S n))) l s1 = Ret s2 /\
    layers s2 = layers s /\ data s2 = data s /\
    propertychange s2 = propertychange s /\ titles s2 = titles s /\
    bound s2.
Proof.
  intros Hb Hs Hnd Hn Hrd Hrec Hr Hfresh Hnp.
  assert (Hnl : ~ In l (List.map getOlLayer (data s))) by now rewrite Hs.
  unfold coll_push, coll_push_raw.
  destruct (layers_add_sync rd n l
              (set_layers (layers s ++ [l]) (call (APush l) s))
              res r (List.length (layers s)) Hb Hrd Hrec)
    as (s1 & E1 & Hl1 & Hd1 & Hp1 & Ht1 & Hb1).
  { cbn. now apply indexOf_app_fresh. }
  cbn [data layers propertychange titles set_layers call] in Hd1, Hl1, Hp1, Ht1.
  assert (Hd1' : data s1 = data s ++ [r]).
  { rewrite Hd1. unfold splice. rewrite <- Hs, length_map.
    now rewrite firstn_all, skipn_all, app_nil_r. }
  assert (Hs1 : in_sync s1).
  { unfold in_sync. rewrite Hd1', Hl1, map_app, Hs. cbn. now rewrite Hr. }
  assert (Hnd1 : NoDup (List.map rid (data s1))).
  { rewrite Hd1', map_app. cbn. apply NoDup_app; [exact Hnd| |].
    - repeat constructor. intros [].
    - intros x Hx [<-|[]]. contradiction. }
  destruct (layer_remove_sync rd n l s1 Hb1 Hs1 Hnd1)
    as (s2 & rec & E2 & Hf & Hl2 & Hd2 & _ & Hp2 & Ht2 & Hb2).
  { rewrite Hl1. apply in_or_app. right. now left. }
  assert (Hrec' : rec = r).
  { unfold findByLayer in Hf. rewrite Hd1 in Hf.
    rewrite (find_layer_spliced l r _ (data s) Hnl Hr) in Hf. congruence. }
  subst rec.
  exists s1, s2. split; [exact E1|]. split; [exact E2|].
  split; [rewrite Hl2, Hl1; now apply remove1_app_fresh|].
  split; [rewrite Hd2, Hd1'; now apply filter_rid_fresh|].
  split; [|split; [congruence|exact Hb2]].
  rewrite Hp2, Hp1. unfold register.
  destruct (existsb (Nat.eqb l) (propertychange s)) eqn:E.
  - apply existsb_exists in E. destruct E as (y & Hy & E).
    apply Nat.eqb_eq in E. subst y. contradiction.
  - cbn. now rewrite Nat.eqb_refl.
Qed.

Lemma layer_push_remove_round_trip_witness :
  exists s1 s2,
    coll_push (dispatch layer_reader 2) 9 bound_store = Ret s1 /\
    coll_remove (dispatch layer_reader 2) 9 s1 = Ret s2 /\
    layers s2 = layers bound_store /\ data s2 = data bound_store /\
    propertychange s2 = propertychange bound_store /\
    titles s2 = titles bound_store /\ bound s2.
Proof.
  assert (Hb : bound bound_store) by (repeat split; reflexivity).
  assert (Hnd : NoDup (List.map rid (data bound_store))).
  { repeat constructor; simpl; intuition discriminate. }
  assert (Hn : ~ In 9 (layers bound_store)).
  { simpl. intuition discriminate. }
  assert (Hf : ~ In (rid (mkRec 109 9 "" None))
                 (List.map rid (data bound_store))).
  { simpl. intuition discriminate. }
  assert (Hp : ~ In 9 (propertychange bound_store)).
  { simpl. intuition discriminate. }
  exact (layer_push_remove_round_trip layer_reader 0 9 bound_store
           (mkResult true 1 [mkRec 109 9 "" None]) (mkRec 109 9 "" None)
           Hb eq_refl Hnd Hn eq_refl eq_refl eq_refl Hf Hp).
Defined.

Lemma NoDup_insert {A} (a : A) l1 l2 :
  NoDup (l1 ++ l2) -> ~ In a (l1 ++ l2) -> NoDup (l1 ++ a :: l2).
Proof.
  intros H1 H2. apply (NoDup_Add (Add_app a l1 l2)). now split.
Qed.

Lemma add_one_titles index l s : titles (add_one index l s) = titles s.
Proof.
  unfold add_one, echo_add.
  destruct (Nat.eqb index 0); cbn; destruct (layers_on s); reflexivity.
Qed.

(** Insertion of a record at an index other than 0 of a bound, in-sync
    store. *)
Lemma record_insert_sync rd n r i s :
  bound s -> in_sync s -> i <> 0 ->
  exists s',
    store_insert (dispatch rd (S (S n))) i [r] s = Ret s' /\
    data s' = splice i [r] (data s) /\
    layers s' = splice1 i (getOlLayer r) (layers s) /\
    in_sync s' /\
    propertychange s' = register (getOlLayer r) (propertychange s) /\
    titles s' = titles s /\ bound s'.
Proof.
  intros (Hm & Hlo & Hso & Ha & Hr) Hs Hi.
  apply Nat.eqb_neq in Hi.
  unfold store_insert. cbv zeta. rewrite dispatch_S.
  cbn [handle store_on set_data call]. rewrite Hso.
  set (s0 := set_data (splice i [r] (data (call (AInsert i [r]) s)))
               (call (AInsert i [r]) s)).
  destruct (onAdd_layers rd n [r] i s0 Hm Ha)
    as (s' & E & Ha' & Hr' & Hd & Hl & Hst).
  rewrite E. exists s'. split; [reflexivity|].
  rewrite Hi in Hl. cbn [data layers s0 set_data call List.map fold_left]
    in Hd, Hl.
  split; [exact Hd|]. split; [exact Hl|]. split.
  { unfold in_sync. now rewrite Hd, Hl, map_splice, Hs. }
  destruct (add_all_frame i [r] (set_adding true s0))
    as (Hm1 & _ & _ & _ & Hlo1 & Hso1 & _).
  rewrite Hst. unfold bound.
  cbn [map propertychange titles layers_on store_on _adding _removing
       set_adding add_all fold_left] in *.
  rewrite add_one_propertychange, add_one_titles.
  cbn [layers_on propertychange titles set_adding s0 set_data call].
  rewrite Hst in Ha', Hr'.
  cbn [_adding _removing set_adding add_all fold_left] in Ha', Hr'.
  rewrite Hm1, Hlo1, Hso1, Hr'. subst s0.
  cbn [map layers_on store_on _removing set_data call app].
  repeat split; assumption.
Qed.

(** X10: inserting a record at an index other than 0 of a bound, in-sync
    store and removing it again gives back the records and the layers as
    they were (the record and its layer being new, records and layers
    distinct); the layer's title is untouched and no guard is left set. *)
Theorem record_insert_remove_round_trip rd n r i s :
  bound s -> in_sync s -> i <> 0 ->
  NoDup (List.map rid (data s)) -> NoDup (layers s) ->
  ~ In (rid r) (List.map rid (data s)) -> ~ In (getOlLayer r) (layers s) ->
  exists s1 s2,
    store_insert (dispatch rd (S (S n))) i [r] s = Ret s1 /\
    store_remove (dispatch rd (S (S n))) r s1 = Ret s2 /\
    data s2 = data s /\ layers s2 = layers s /\ titles s2 = titles s /\
    bound s2.
Proof.
  intros Hb Hs Hi Hnd Hndl Hfr Hfl.
  destruct (record_insert_sync rd n r i s Hb Hs Hi)
    as (s1 & E1 & Hd1 & Hl1 & Hs1 & _ & Ht1 & Hb1).
  assert (Hin : In r (data s1)).
  { rewrite Hd1. unfold splice. apply in_or_app. right. now left. }
  assert (Hnd1 : NoDup (List.map rid (data s1))).
  { rewrite Hd1. unfold splice. rewrite !map_app. cbn.
    apply NoDup_insert; rewrite <- map_app, firstn_skipn; assumption. }
  assert (Hndl1 : NoDup (layers s1)).
  { rewrite Hl1. unfold splice1.
    apply NoDup_insert; rewrite firstn_skipn; assumption. }
  destruct (record_remove_sync rd n r s1 Hb1 Hs1 Hnd1 Hndl1 Hin)
    as (s2 & E2 & Hd2 & Hl2 & _ & _ & Ht2 & Hb2).
  exists s1, s2. split; [exact E1|]. split; [exact E2|].
  split; [|split; [|split; [congruence|exact Hb2]]].
  - rewrite Hd2, Hd1. unfold splice. rewrite !filter_app. cbn.
    rewrite Nat.eqb_refl. cbn.
    assert (Hall : forall d, ~ In (rid r) (List.map rid d) ->
              filter (fun x => negb (Nat.eqb (rid x) (rid r))) d = d).
    { clear. induction d as [|x d IH]; intros Hn; [reflexivity|]. cbn.
      destruct (Nat.eqb (rid x) (rid r)) eqn:E.
      - apply Nat.eqb_eq in E. destruct Hn. now left.
      - cbn. rewrite IH; [reflexivity|]. intros H. apply Hn. now right. }
    rewrite !Hall.
    + apply firstn_skipn.
    + intros H. apply Hfr. rewrite <- (firstn_skipn i (data s)), map_app.
      apply in_or_app. now right.
    + intros H. apply Hfr. rewrite <- (firstn_skipn i (data s)), map_app.
      apply in_or_app. now left.
  - rewrite Hl2, Hl1. unfold splice1.
    assert (Hrm : forall front back, ~ In (getOlLayer r) front ->
              remove1 (getOlLayer r) (front ++ getOlLayer r :: back)
              = front ++ back).
    { clear. induction front as [|x front IH]; intros back Hn; cbn.
      - now rewrite Nat.eqb_refl.
      - destruct (Nat.eqb x (getOlLayer r)) eqn:E.
        + apply Nat.eqb_eq in E. destruct Hn. now left.
        + rewrite IH; [reflexivity|]. intros H. apply Hn. now right. }
    rewrite Hrm.
    + apply firstn_skipn.
    + intros H. apply Hfl. rewrite <- (firstn_skipn i (layers s)).
      apply in_or_app. now left.
Qed.

Lemma record_insert_remove_round_trip_witness :
  exists s1 s2,
    store_insert (dispatch layer_reader 2) 1 [mkRec 50 9 "nine" None]
      bound_store = Ret s1 /\
    store_remove (dispatch layer_reader 2) (mkRec 50 9 "nine" None) s1
      = Ret s2 /\
    data s2 = data bound_store /\ layers s2 = layers bound_store /\
    titles s2 = titles bound_store /\ bound s2.
Proof.
  assert (Hb : bound bound_store) by (repeat split; reflexivity).
  assert (Hnd : NoDup (List.map rid (data bound_store))).
  { repeat constructor; simpl; intuition discriminate. }
  assert (Hndl : NoDup (layers bound_store)).
  { repeat constructor; simpl; intuition discriminate. }
  assert (Hfr : ~ In (rid (mkRec 50 9 "nine" None))
                  (List.map rid (data bound_store))).
  { simpl. intuition discriminate. }
  assert (Hfl : ~ In (getOlLayer (mkRec 50 9 "nine" None))
                  (layers bound_store)).
  { simpl. intuition discriminate. }
  assert (Hi : 1 <> 0) by discriminate.
  exact (record_insert_remove_round_trip layer_reader 0
           (mkRec 50 9 "nine" None) 1 bound_store Hb eq_refl Hi Hnd Hndl
           Hfr Hfl).
Defined.

(** ** Clearing the store *)

Lemma un_all_propertychange ls : forall s,
  propertychange (un_all ls s) =
  fold_left (fun p l => remove1 l p) ls (propertychange s).
Proof.
  induction ls as [|l ls IH]; intros s; [reflexivity|].
  cbn [un_all fold_left]. fold (un_all ls (layer_un l s)).
  now rewrite IH.
Qed.

(** X11: the store's [clear] event in a store with a map and its listeners
    registered: [onChangeLayer] is detached once from every layer of the map,
    in collection order, then the layer collection is cleared; the [remove]
    events of that clearing are suppressed, so no record is removed from the
    store by it; the map ends without layers and [_removing] ends clear. *)
Theorem clear_empties_map rd n s :
  map s = true -> store_on s = true ->
  exists s',
    dispatch rd (S (S n)) EvClear s = Ret s' /\
    layers s' = [] /\ data s' = data s /\
    trace s' = trace s ++ List.map AUn (layers s) ++ [AClear] /\
    propertychange s' =
      fold_left (fun p l => remove1 l p) (layers s) (propertychange s) /\
    _removing s' = false /\ _adding s' = _adding s.
Proof.
  intros Hm Hso. rewrite dispatch_S. cbn [handle]. rewrite Hso.
  rewrite (onClear_cleared rd n s Hm).
  eexists. split; [reflexivity|].
  destruct (cleared_frame (set_removing true s))
    as (_ & Hd & Ha & _ & _ & _ & _ & Hl & Hc).
  cbn [layers data _adding _removing propertychange set_removing].
  split; [exact Hl|]. split; [exact Hd|]. split.
  - unfold trace. cbn [calls set_removing]. rewrite Hc.
    cbn [layers calls set_removing rev].
    rewrite rev_app_distr, rev_involutive, <- app_assoc. reflexivity.
  - split; [|split; [reflexivity|exact Ha]].
    unfold cleared. cbn [propertychange set_layers call].
    now rewrite un_all_propertychange.
Qed.

Lemma clear_empties_map_witness :
  exists s',
    dispatch layer_reader 2 EvClear bound_store = Ret s' /\
    layers s' = [] /\ data s' = data bound_store /\
    trace s' = [AUn 1; AUn 2; AClear] /\
    propertychange s' = [] /\
    _removing s' = false /\ _adding s' = false.
Proof.
  exact (clear_empties_map layer_reader 0 bound_store eq_refl eq_refl).
Defined.

(** ** Loading into a bound store *)

(** X12: [loadRawData] with a successful read on a store with a map and its
    listeners registered.  The records of the store are replaced by the
    records read, or extended by them when [append] is set.  The [load] event
    then reaches [onLoad]: the layers of the records read are added at the
    end of the layer collection, which is emptied first unless [append] was
    set or [_addRecords] was still set from an earlier import; [_addRecords]
    ends clear.  So a replacing load with [_addRecords] clear, or an
    appending load into an in-sync store, leaves the order of the records
    equal to the order of the layers. *)
Theorem loadRawData_bound rd n l append s res :
  map s = true -> store_on s = true ->
  rd l = Some res -> success res = true ->
  exists s',
    loadRawData rd (dispatch rd (S (S n))) l append s = Ret s' /\
    data s' = (if append then data s ++ records res else records res) /\
    layers s' =
      (if append || _addRecords s then layers s else [])
      ++ List.map getOlLayer (records res) /\
    _addRecords s' = false /\
    (append = false -> _addRecords s = false -> in_sync s') /\
    (append = true -> in_sync s -> in_sync s').
Proof.
  intros Hm Hso Hrd Hok. unfold loadRawData. rewrite Hrd, Hok.
  unfold loadRecords. cbn [bind]. rewrite dispatch_S. cbn [handle].
  set (s1 := parent_loadRecords (records res) append
               (if append
                then set_addRecords true (set_totalCount (total res) s)
                else set_totalCount (total res) s)).
  assert (H1 : map s1 = true /\ store_on s1 = true /\ layers s1 = layers s /\
               data s1 = (if append then data s ++ records res
                          else records res) /\
               _addRecords s1 = (append || _addRecords s)).
  { subst s1. unfold parent_loadRecords. destruct append; cbn; tauto. }
  destruct H1 as (Hm1 & Hso1 & Hl1 & Hd1 & Hf1).
  rewrite Hso1, (onLoad_loaded rd n (records res) s1 Hm1).
  exists (loaded (records res) s1). split; [reflexivity|].
  destruct (loaded_frame (records res) s1) as (Hl & Hd & Hf & _).
  rewrite Hf1, Hl1 in Hl. rewrite Hd1 in Hd.
  split; [exact Hd|]. split; [exact Hl|]. split; [exact Hf|]. split.
  - intros -> Hfl. unfold in_sync. rewrite Hd, Hl, Hfl. reflexivity.
  - intros -> Hs. unfold in_sync. rewrite Hd, Hl, map_app, Hs. reflexivity.
Qed.

Lemma loadRawData_bound_witness :
  exists s',
    loadRawData layer_reader (dispatch layer_reader 2) 9 false bound_store
      = Ret s' /\
    data s' = [mkRec 109 9 "" None] /\
    layers s' = [9] /\
    _addRecords s' = false /\
    (false = false -> _addRecords bound_store = false -> in_sync s') /\
    (false = true -> in_sync bound_store -> in_sync s').
Proof.
  exact (loadRawData_bound layer_reader 0 9 false bound_store
           (mkResult true 1 [mkRec 109 9 "" None])
           eq_refl eq_refl eq_refl eq_refl).
Defined.

Lemma import_loop_addRecords rd n ls : forall s s',
  store_on s = false ->
  forEach (fun l => loadRawData rd (dispatch rd (S n)) l true) ls s = Ret s' ->
  _addRecords s' = (_addRecords s || existsb (imports rd) ls)%bool.
Proof.
  induction ls as [|l ls IH]; intros s s' Hso H.
  - cbn in H. injection H as <-. cbn. now rewrite orb_false_r.
  - cbn [forEach] in H. cbn [existsb].
    assert (Hi : imports rd l = match rd l with
                                | Some res => success res
                                | None => false
                                end) by reflexivity.
    rewrite Hi. clear Hi.
    destruct (rd l) as [res|] eqn:E.
    + rewrite (loadRawData_unlistened rd n l s res E Hso) in H.
      cbn [bind] in H.
      destruct (success res).
      * rewrite (IH (set_data (data s ++ records res)
                       (set_addRecords true (set_totalCount (total res) s)))
                   s' Hso H).
        cbn. now rewrite orb_true_r.
      * rewrite (IH _ s' Hso H). reflexivity.
    + unfold loadRawData in H. rewrite E in H. discriminate.
Qed.

(** X13: [bindMap] leaves [_addRecords] set.  The imports of [bindMap] set
    the flag and fire [load] before [onLoad] is registered, so nothing
    deletes it.  The next replacing load therefore replaces the records of
    the store but does not clear the layer collection: the layers of the map
    stay and the layers of the new records are added after them. *)
Theorem load_after_bind_keeps_layers rd n s x res :
  store_on s = false ->
  (forall l, In l (layers s) -> rd l <> None) ->
  existsb (imports rd) (layers s) = true ->
  rd x = Some res -> success res = true ->
  exists s1 s2,
    bindMap rd (dispatch rd (S (S n))) true s = Ret s1 /\
    _addRecords s1 = true /\
    loadRawData rd (dispatch rd (S (S n))) x false s1 = Ret s2 /\
    data s2 = records res /\
    layers s2 = layers s ++ List.map getOlLayer (records res) /\
    _addRecords s2 = false.
Proof.
  intros Hso Hrd Hex Hx Hok.
  assert (H1 : exists s1,
             bindMap rd (dispatch rd (S (S n))) true s = Ret s1 /\
             _addRecords s1 = true /\ map s1 = true /\ store_on s1 = true /\
             layers s1 = layers s).
  { destruct (bindMap_unlistened rd (S n) s Hso Hrd)
      as (s1 & E & Hm & Hl & _ & _ & _ & Hso1 & _).
    exists s1. split; [exact E|]. split; [|tauto].
    unfold bindMap in E.
    set (s0 := if negb (map s) then set_map true s else s) in E.
    assert (H0 : layers s0 = layers s /\ store_on s0 = false /\
                 _addRecords s0 = _addRecords s).
    { subst s0. destruct (map s); cbn; tauto. }
    destruct H0 as (Hl0 & Hso0 & Hf0).
    destruct (forEach (fun l => loadRawData rd (dispatch rd (S (S n))) l true)
                (layers s0) s0) as [s'| |] eqn:El; try discriminate E.
    pose proof (import_loop_addRecords rd (S n) _ _ _ Hso0 El) as Hf.
    rewrite Hl0, Hex, orb_true_r in Hf.
    cbn [bind] in E. injection E as <-.
    cbn [_addRecords call set_store_on set_layers_on].
    fold (on_all (layers s') s').
    destruct (on_all_frame (layers s') s') as (_ & _ & _ & _ & _ & -> & _).
    exact Hf. }
  destruct H1 as (s1 & E1 & Hf1 & Hm1 & Hso1 & Hl1).
  exists s1. eexists. split; [exact E1|]. split; [exact Hf1|].
  unfold loadRawData. rewrite Hx, Hok.
  unfold loadRecords, parent_loadRecords. cbn [bind].
  rewrite dispatch_S. cbn [handle store_on set_data set_totalCount].
  rewrite Hso1.
  rewrite onLoad_loaded by exact Hm1.
  split; [reflexivity|].
  match goal with |- context [loaded ?rs ?st] =>
    destruct (loaded_frame rs st) as (Hl & Hd & Hf & _) end.
  cbn [layers data _addRecords set_data set_totalCount] in Hl, Hd.
  rewrite Hf1, Hl1 in Hl. auto.
Qed.

Lemma load_after_bind_keeps_layers_witness :
  exists s1 s2,
    bindMap layer_reader (dispatch layer_reader 2) true unbound_store
      = Ret s1 /\
    _addRecords s1 = true /\
    loadRawData layer_reader (dispatch layer_reader 2) 9 false s1 = Ret s2 /\
    data s2 = [mkRec 109 9 "" None] /\
    layers s2 = [1; 2; 9] /\
    _addRecords s2 = false.
Proof.
  refine (load_after_bind_keeps_layers layer_reader 0 unbound_store 9
            (mkResult true 1 [mkRec 109 9 "" None]) eq_refl _ eq_refl
            eq_refl eq_refl).
  intros l _. unfold layer_reader. discriminate.
Defined.

(** ** Titles *)

(** X14: the title of a layer is set, the layer carrying at least one
    registration of [onChangeLayer] and the records being distinct objects:
    afterwards the record [getByLayer] finds for the layer is the same
    record object as before and its title is the layer's new title; the
    layers, the identities and the layers of the records stay as they are. *)
Theorem layer_title_reaches_record rd n l t r s :
  NoDup (List.map rid (data s)) ->
  findByLayer l s = Some r ->
  1 <= count l (propertychange s) ->
  exists s' r',
    layer_set_title (dispatch rd (S (S n))) l t s = Ret s' /\
    layer_get_title l s' = t /\
    getByLayer l s' = Some r' /\ rid r' = rid r /\ rtitle r' = t /\
    layers s' = layers s /\
    List.map rid (data s') = List.map rid (data s) /\
    data s' = (if String.eqb (rtitle r) t then data s
               else retitled (rid r) t (data s)).
Proof.
  intros Hnd Hf Hc. unfold layer_set_title. rewrite dispatch_S.
  cbn [handle propertychange set_titles call].
  set (s1 := set_titles ((l, t) :: titles s) (call (ALayerSetTitle l t) s)).
  assert (Ht : layer_get_title l s1 = t).
  { unfold layer_get_title. cbn. now rewrite Nat.eqb_refl. }
  unfold count in Hc.
  destruct (filter (Nat.eqb l) (propertychange s)) as [|x regs];
    [cbn in Hc; lia|].
  cbn [forEach].
  rewrite (onChangeLayer_title rd n l r s1 Hnd Hf). cbv zeta. rewrite Ht.
  cbn [bind].
  set (s2 := if String.eqb (rtitle r) t
             then call (ARecordSetTitle (rid r) t) s1
             else set_data (retitled (rid r) t (data s1))
                    (call (ARecordSetTitle (rid r) t) s1)).
  set (r' := if String.eqb (rtitle r) t then r else edit_title t r).
  assert (H2 : data s2 = (if String.eqb (rtitle r) t then data s
                          else retitled (rid r) t (data s)) /\
               layers s2 = layers s /\ layer_get_title l s2 = t /\
               findByLayer l s2 = Some r' /\ rtitle r' = t /\
               rid r' = rid r /\
               List.map rid (data s2) = List.map rid (data s)).
  { subst s2 r'. destruct (String.eqb (rtitle r) t) eqn:E.
    - apply String.eqb_eq in E. repeat split; try assumption.
    - repeat split; try assumption.
      + unfold findByLayer. cbn. now apply retitled_find_layer.
      + cbn. apply retitled_rids. }
  destruct H2 as (Hd2 & Hl2 & Ht2 & Hf2 & Hr' & Hid & Hrids).
  rewrite (title_listeners_in_sync _ l r' regs s2).
  - exists (set_calls (rid r') (rtitle r') regs s2), r'.
    split; [reflexivity|].
    destruct (set_calls_frame (rid r') (rtitle r') regs s2)
      as (Hd & Hl & Htt & _).
    unfold getByLayer, findByLayer, layer_get_title in *.
    rewrite Hd, Hl, Htt. repeat split; assumption.
  - now rewrite Hrids.
  - exact Hf2.
  - now rewrite Hr', Ht2.
Qed.

Lemma layer_title_reaches_record_witness :
  exists s' r',
    layer_set_title (dispatch layer_reader 2) 1 "roads" bound_store = Ret s' /\
    layer_get_title 1 s' = "roads" /\
    getByLayer 1 s' = Some r' /\ rid r' = 101 /\ rtitle r' = "roads" /\
    layers s' = [1; 2] /\
    List.map rid (data s') = [101; 102] /\
    data s' = [mkRec 101 1 "roads" (Some "one"); mkRec 102 2 "two" None].
Proof.
  assert (Hnd : NoDup (List.map rid (data bound_store))).
  { repeat constructor; simpl; intuition discriminate. }
  refine (layer_title_reaches_record layer_reader 0 1 "roads"
            (mkRec 101 1 "one" None) bound_store Hnd eq_refl _).
  vm_compute. lia.
Defined.

(** X15: the title of a record of a bound store is set to a new value: the
    record being the one its layer is bound to, the records distinct, the
    value kept in [record.modified.title] truthy and the new title not the
    layer's, the layer gets the new title, the record has it, the layers stay
    as they are, and the [update] event for the edited record then finds
    nothing more to do. *)
Theorem record_title_reaches_layer rd n r t s :
  bound s ->
  NoDup (List.map rid (data s)) ->
  findByLayer (getOlLayer r) s = Some r ->
  String.eqb (rtitle r) t = false ->
  truthy (modified_title (edit_title t r)) = true ->
  String.eqb t (layer_get_title (getOlLayer r) s) = false ->
  exists s',
    record_set_title (dispatch rd (S (S (S n)))) (rid r) t s = Ret s' /\
    layer_get_title (getOlLayer r) s' = t /\
    getByLayer (getOlLayer r) s' = Some (edit_title t r) /\
    layers s' = layers s /\
    data s' = retitled (rid r) t (data s) /\
    dispatch rd (S n) (EvUpdate (edit_title t r) EDIT) s' = Ret s'.
Proof.
  intros Hb Hnd Hf Hne Hmod Hlt.
  destruct (record_title_once rd n r t s Hb Hnd Hf Hne Hmod Hlt)
    as (s' & E & _ & Hl & Ht & Hd).
  exists s'. split; [exact E|]. split; [exact Ht|]. split.
  - unfold getByLayer, findByLayer. rewrite Hd.
    now apply retitled_find_layer.
  - split; [exact Hl|]. split; [exact Hd|].
    apply dispatch_update_in_sync.
    change (getOlLayer (edit_title t r)) with (getOlLayer r).
    change (rtitle (edit_title t r)) with t. now rewrite Ht.
Qed.

Lemma record_title_reaches_layer_witness :
  exists s',
    record_set_title (dispatch layer_reader 3) 101 "roads" bound_store
      = Ret s' /\
    layer_get_title 1 s' = "roads" /\
    getByLayer 1 s' = Some (mkRec 101 1 "roads" (Some "one")) /\
    layers s' = [1; 2] /\
    data s' = [mkRec 101 1 "roads" (Some "one"); mkRec 102 2 "two" None] /\
    dispatch layer_reader 1
      (EvUpdate (mkRec 101 1 "roads" (Some "one")) EDIT) s' = Ret s'.
Proof.
  assert (Hb : bound bound_store) by (repeat split; reflexivity).
  assert (Hnd : NoDup (List.map rid (data bound_store))).
  { repeat constructor; simpl; intuition discriminate. }
  exact (record_title_reaches_layer layer_reader 0 (mkRec 101 1 "one" None)
           "roads" bound_store Hb Hnd eq_refl eq_refl eq_refl eq_refl).
Defined.

(** [onStoreUpdate] when it has something to do. *)
Lemma onStoreUpdate_sets_title rd n r s :
  NoDup (List.map rid (data s)) ->
  findByLayer (getOlLayer r) s = Some r ->
  truthy (modified_title r) = true ->
  String.eqb (rtitle r) (layer_get_title (getOlLayer r) s) = false ->
  exists s',
    onStoreUpdate (dispatch rd (S n)) r EDIT s = Ret s' /\
    layer_get_title (getOlLayer r) s' = rtitle r /\
    exists rest,
      trace s' = trace s ++ ALayerSetTitle (getOlLayer r) (rtitle r) :: rest.
Proof.
  intros Hnd Hf Hmod Hne. unfold onStoreUpdate. cbn [Operation_eqb].
  rewrite Hmod, Hne. cbn [negb].
  unfold layer_set_title. rewrite dispatch_S.
  cbn [handle propertychange set_titles call].
  rewrite (title_listeners_in_sync _ (getOlLayer r) r); cycle 1.
  - exact Hnd.
  - exact Hf.
  - unfold layer_get_title. cbn. now rewrite Nat.eqb_refl.
  - eexists. split; [reflexivity|].
    match goal with |- context [set_calls ?a ?b ?c ?d] =>
      destruct (set_calls_frame a b c d) as (_ & _ & Ht & _ & _ & _ & Hc) end.
    unfold layer_get_title, trace. rewrite Ht, Hc. cbn [titles calls set_titles call assoc].
    rewrite Nat.eqb_refl. split; [reflexivity|].
    eexists. rewrite rev_app_distr. cbn [rev]. rewrite <- app_assoc.
    reflexivity.
Qed.

(** X16: [onStoreUpdate] for a record that is the first record of the store
    bound to its layer, the records of the store being distinct objects.  It
    returns and leaves the records, the layer collection, the registrations
    of [onChangeLayer] and both guards as they were.  When the operation is
    [EDIT], the value in [record.modified.title] is truthy and the record's
    title is not the layer's, it sets the layer's title to the record's;
    otherwise it does nothing at all. *)
Theorem onStoreUpdate_only_sets_title rd n r op s :
  NoDup (List.map rid (data s)) ->
  findByLayer (getOlLayer r) s = Some r ->
  exists s',
    onStoreUpdate (dispatch rd (S n)) r op s = Ret s' /\
    data s' = data s /\ layers s' = layers s /\
    propertychange s' = propertychange s /\
    _adding s' = _adding s /\ _removing s' = _removing s /\
    (op = EDIT -> truthy (modified_title r) = true ->
     rtitle r <> layer_get_title (getOlLayer r) s ->
     layer_get_title (getOlLayer r) s' = rtitle r /\
     In (ALayerSetTitle (getOlLayer r) (rtitle r)) (trace s')) /\
    (op <> EDIT \/ truthy (modified_title r) = false \/
     rtitle r = layer_get_title (getOlLayer r) s -> s' = s).
Proof.
  intros Hnd Hf.
  destruct (onStoreUpdate_first_record rd n r op s Hnd Hf)
    as (s' & E & Hd & Hl & Hp & Ha & Hr & _).
  exists s'. split; [exact E|]. repeat split; try assumption.
  - subst op. apply String.eqb_neq in H1.
    destruct (onStoreUpdate_sets_title rd n r s Hnd Hf H0 H1)
      as (s2 & E2 & Ht & _).
    congruence.
  - subst op. apply String.eqb_neq in H1.
    destruct (onStoreUpdate_sets_title rd n r s Hnd Hf H0 H1)
      as (s2 & E2 & _ & rest & Ht).
    assert (s' = s2) by congruence. subst s2. rewrite Ht.
    apply in_or_app. right. now left.
  - intros H. unfold onStoreUpdate in E.
    destruct H as [H|[H|H]].
    + destruct op; try (now destruct H); cbn in E; congruence.
    + rewrite H in E. destruct (Operation_eqb op EDIT); congruence.
    + rewrite H, String.eqb_refl in E. cbn in E.
      destruct (Operation_eqb op EDIT), (truthy (modified_title r));
        congruence.
Qed.

Lemma onStoreUpdate_only_sets_title_witness :
  exists s',
    onStoreUpdate (dispatch layer_reader 1) (mkRec 101 1 "roads" (Some "one"))
      EDIT edited_store = Ret s' /\
    data s' = data edited_store /\ layers s' = layers edited_store /\
    propertychange s' = propertychange edited_store /\
    _adding s' = _adding edited_store /\
    _removing s' = _removing edited_store /\
    (EDIT = EDIT -> truthy (Some "one") = true ->
     "roads" <> layer_get_title 1 edited_store ->
     layer_get_title 1 s' = "roads" /\
     In (ALayerSetTitle 1 "roads") (trace s')) /\
    (EDIT <> EDIT \/ truthy (Some "one") = false \/
     "roads" = layer_get_title 1 edited_store -> s' = edited_store).
Proof.
  assert (Hnd : NoDup (List.map rid (data edited_store))).
  { repeat constructor; simpl; intuition discriminate. }
  exact (onStoreUpdate_only_sets_title layer_reader 0
           (mkRec 101 1 "roads" (Some "one")) EDIT edited_store Hnd eq_refl).
Defined.

(** On that run the layer gets the record's title. *)
Example onStoreUpdate_edited_store :
  exists s',
    onStoreUpdate (dispatch layer_reader 1) (mkRec 101 1 "roads" (Some "one"))
      EDIT edited_store = Ret s' /\
    layer_get_title 1 edited_store = "one" /\
    layer_get_title 1 s' = "roads" /\
    trace s' = [ALayerSetTitle 1 "roads"; ARecordSetTitle 101 "roads"].
Proof. eexists. split; [vm_compute; reflexivity|]. repeat split. Qed.

(** ** Lookup *)

Lemma find_first {A} (p : A -> bool) r : forall d,
  find p d = Some r ->
  exists front back,
    d = front ++ r :: back /\ forall x, In x front -> p x = false.
Proof.
  induction d as [|x d IH]; intros H; [discriminate|]. cbn in H.
  destruct (p x) eqn:E.
  - injection H as ->. exists [], d. split; [reflexivity|]. intros y [].
  - destruct (IH H) as (front & back & -> & Hfr).
    exists (x :: front), back. split; [reflexivity|].
    intros y [<-|Hy]; auto.
Qed.

(** X17: [getByLayer] returns the first record of the store whose layer is
    the given layer (no record before it in the store has that layer), and
    nothing exactly when no record of the store has that layer. *)
Theorem getByLayer_first l s :
  (forall r, getByLayer l s = Some r ->
     getOlLayer r = l /\
     exists front back,
       data s = front ++ r :: back /\
       ~ In l (List.map getOlLayer front)) /\
  (getByLayer l s = None <-> ~ In l (List.map getOlLayer (data s))).
Proof.
  unfold getByLayer, findByLayer. split.
  - intros r H. split.
    + apply find_some in H. now apply Nat.eqb_eq.
    + destruct (find_first _ r _ H) as (front & back & Hd & Hfr).
      exists front, back. split; [exact Hd|].
      intros Hin. apply in_map_iff in Hin. destruct Hin as (x & Hx & Hin).
      specialize (Hfr x Hin). apply Nat.eqb_neq in Hfr. contradiction.
  - split.
    + intros H Hin. apply in_map_iff in Hin. destruct Hin as (x & Hx & Hin).
      pose proof (find_none _ _ H x Hin) as Hn. cbn in Hn.
      apply Nat.eqb_neq in Hn. contradiction.
    + apply find_layer_none.
Qed.

(** X18: a layer that no record of the store is bound to is removed from
    the layer collection of a bound store: [onRemoveLayer] finds no record
    and returns before anything else, so the store is untouched, no guard is
    set, and the layer keeps its registrations of [onChangeLayer]. *)
Theorem unbound_layer_removed rd n l s :
  bound s -> findByLayer l s = None ->
  exists s',
    coll_remove (dispatch rd (S (S n))) l s = Ret s' /\
    layers s' = remove1 l (layers s) /\
    data s' = data s /\
    propertychange s' = propertychange s /\
    trace s' = trace s ++ [ARemoveLayer l] /\
    bound s'.
Proof.
  intros (Hm & Hlo & Hso & Ha & Hr) Hf.
  unfold coll_remove. cbv zeta. cbn [layers call].
  destruct (indexOf l (layers s)) eqn:Hi.
  - rewrite dispatch_S. cbn [handle layers_on set_layers call]. rewrite Hlo.
    unfold onRemoveLayer, getByLayer. cbn [_removing set_layers call].
    rewrite Hr. cbn [negb].
    unfold findByLayer in Hf |- *. cbn [data set_layers call]. rewrite Hf.
    eexists. split; [reflexivity|]. unfold bound. cbn. repeat split; assumption.
  - eexists. split; [reflexivity|]. unfold bound. cbn [layers call].
    rewrite remove1_absent by exact Hi. cbn. repeat split; assumption.
Qed.

Lemma unbound_layer_removed_witness :
  exists s',
    coll_remove (dispatch layer_reader 2) 1 replaced_store = Ret s' /\
    layers s' = [2] /\
    data s' = data replaced_store /\
    propertychange s' = [2; 1] /\
    trace s' = [ARemoveLayer 1] /\
    bound s'.
Proof.
  assert (Hb : bound replaced_store) by (repeat split; reflexivity).
  exact (unbound_layer_removed layer_reader 0 1 replaced_store Hb eq_refl).
Defined.

Lemma getByLayer_first_witness :
  getOlLayer (mkRec 102 2 "two" None) = 2 /\
  exists front back,
    data bound_store = front ++ mkRec 102 2 "two" None :: back /\
    ~ In 2 (List.map getOlLayer front).
Proof.
  exact (proj1 (getByLayer_first 2 bound_store) (mkRec 102 2 "two" None)
           eq_refl).
Defined.

(** ** Several records added at once *)

Lemma fold_splice1_rev {A} i (xs : list A) : forall ls,
  i <= List.length ls ->
  fold_left (fun ls l => splice1 i l ls) xs ls =
  firstn i ls ++ rev xs ++ skipn i ls.
Proof.
  induction xs as [|x xs IH]; intros ls Hi; cbn [fold_left rev].
  - cbn. now rewrite firstn_skipn.
  - assert (Hlen : List.length (firstn i ls) = i)
      by (rewrite length_firstn; lia).
    rewrite IH.
    + unfold splice1.
      rewrite firstn_app, Hlen, Nat.sub_diag, firstn_firstn, Nat.min_id.
      cbn [firstn]. rewrite app_nil_r.
      rewrite skipn_app, Hlen, Nat.sub_diag. cbn [skipn].
      rewrite (skipn_all2 (firstn i ls)) by lia.
      cbn [app]. rewrite <- !app_assoc. reflexivity.
    + unfold splice1. rewrite length_app. cbn. lia.
Qed.

(** X19: the store's [add] event for several records at an index other than
    0 (and within the layer collection), in a bound store: [onAdd] inserts
    the layer of every record at that same index, one after the other, so
    the layers end up at the index in the reverse of the order of the
    records. *)
Theorem records_added_in_reverse rd n rs i s :
  bound s -> i <> 0 -> i <= List.length (layers s) ->
  exists s',
    dispatch rd (S (S n)) (EvAdd rs i) s = Ret s' /\
    layers s' =
      firstn i (layers s) ++ rev (List.map getOlLayer rs)
      ++ skipn i (layers s) /\
    data s' = data s /\ _adding s' = false.
Proof.
  intros (Hm & Hlo & Hso & Ha & Hr) Hi Hle.
  rewrite dispatch_S. cbn [handle]. rewrite Hso.
  destruct (onAdd_layers rd n rs i s Hm Ha) as (s' & E & Ha' & _ & Hd & Hl & _).
  exists s'. split; [exact E|].
  apply Nat.eqb_neq in Hi. rewrite Hi in Hl.
  rewrite Hl, fold_splice1_rev by exact Hle. auto.
Qed.

Lemma records_added_in_reverse_witness :
  exists s',
    dispatch layer_reader 2
      (EvAdd [mkRec 50 9 "nine" None; mkRec 51 8 "eight" None] 1) bound_store
      = Ret s' /\
    layers s' = [1; 8; 9; 2] /\
    data s' = data bound_store /\ _adding s' = false.
Proof.
  assert (Hb : bound bound_store) by (repeat split; reflexivity).
  assert (Hi : 1 <> 0) by discriminate.
  refine (records_added_in_reverse layer_reader 0
            [mkRec 50 9 "nine" None; mkRec 51 8 "eight" None] 1 bound_store
            Hb Hi _).
  simpl. lia.
Defined.
